(** * Verification of the YOLOv8 training driver
    (Resources/Scripts/train_yolov8.py)

    The script reports the state of a training job as one JSON record per
    line on stdout.  This development embeds the event emitter and the job
    controller as functions in a state-and-exception monad over a [World]
    (the stdout stream, the filesystem, the callbacks registered on the
    model, the calls made to the training engine, the wall clock) and
    proves properties of the emitted stream.

    Modelling conventions.
    - A Python value that reaches [json.dumps] is a [pyval]; a dict is an
      insertion-ordered association list without repeated keys.
    - The stdout stream is the list of records printed so far (each
      [print(json.dumps(event), flush=True)] appends one record, and is
      assumed to succeed).
    - The training engine (ultralytics) is external: its behaviour is an
      [Engine] value that says what the import does, what the model
      constructor does, and which hooks the blocking [train] call fires
      before it returns or raises.  Exceptions originate in those calls
      and in Python's own argument binding.
    - Float formatting and pathlib are library code, taken as parameters. *)

From Stdlib Require Import ZArith String List Bool Lia.
From Stdlib Require Import Floats.PrimFloat.
From Stdlib Require DecimalString.
From stdpp Require Import base option list strings gmap.

Open Scope Z_scope.

(** ** Python values and dictionaries *)

Inductive pyval :=
  | PyNone
  | PyBool (b : bool)
  | PyInt (z : Z)
  | PyFloat (x : float)
  | PyStr (s : string).

(** [v is not None] *)
Definition is_not_None (v : pyval) : bool :=
  match v with PyNone => false | _ => true end.

(** [None] for an omitted optional integer *)
Definition opt_int (o : option Z) : pyval :=
  match o with Some z => PyInt z | None => PyNone end.

Definition dict := list (string * pyval).

Fixpoint dict_get (d : dict) (k : string) : option pyval :=
  match d with
  | [] => None
  | (k', v) :: d' => if String.eqb k' k then Some v else dict_get d' k
  end.

Definition has_key (d : dict) (k : string) : bool :=
  match dict_get d k with Some _ => true | None => false end.

Definition keys (d : dict) : list string := map fst d.

(** [d[k] = v]: an existing key keeps its position and takes the new
    value, a new key goes to the end. *)
Fixpoint dict_set (d : dict) (k : string) (v : pyval) : dict :=
  match d with
  | [] => [(k, v)]
  | (k', v') :: d' =>
      if String.eqb k' k then (k', v) :: d' else (k', v') :: dict_set d' k v
  end.

(** [d.update(e)], also the [**e] of a dict display. *)
Definition dict_update (d e : dict) : dict :=
  fold_left (fun acc kv => dict_set acc (fst kv) (snd kv)) e d.

(** [str(n)] for an int *)
Definition str_int (n : Z) : string :=
  DecimalString.NilZero.string_of_int (Z.to_int n).

(** ** Exceptions *)

(** Classes deriving from [Exception].  [OtherException] stands for any
    class that derives from [Exception] and not from [ImportError]. *)
Inductive exception_class :=
  | ImportError
  | ModuleNotFoundError
  | TypeError
  | OtherException (name : string).

(** What can be raised: the three [BaseException]-only classes, and the
    [Exception] classes with their message ([str(e)]). *)
Inductive exn :=
  | KeyboardInterrupt
  | SystemExit (code : Z)
  | GeneratorExit
  | PyException (cls : exception_class) (msg : string).

Definition isinstance_Exception (e : exn) : bool :=
  match e with PyException _ _ => true | _ => false end.

Definition isinstance_ImportError (e : exn) : bool :=
  match e with
  | PyException ImportError _ | PyException ModuleNotFoundError _ => true
  | _ => false
  end.

Definition isinstance_KeyboardInterrupt (e : exn) : bool :=
  match e with KeyboardInterrupt => true | _ => false end.

(** [str(e)] *)
Definition str_exn (e : exn) : string :=
  match e with
  | PyException _ msg => msg
  | SystemExit code => str_int code
  | _ => ""
  end.

Inductive Outcome (A : Type) :=
  | Return (a : A)
  | Raise (e : exn).
Arguments Return {A} a.
Arguments Raise {A} e.

(** ** Argument binding

    [metric] and [emit] both take named parameters followed by a
    [**kwargs] catch-all.  Python binds the positional arguments to the
    parameters in order, then each keyword argument to the parameter of
    that name, or to the catch-all when no parameter has that name; a
    parameter bound twice is a [TypeError], raised before the body runs.
    (The texts of the arity errors are abbreviated.) *)

Record Call := mkCall { pos : list pyval; kw : dict }.

(** A parameter with its default ([None]: required). *)
Definition param := (string * option pyval)%type.

Definition type_error (fname what : string) : exn :=
  PyException TypeError (fname +:+ "() " +:+ what).

(** Is [k] the name of one of the parameters? *)
Definition is_param (params : list param) (k : string) : bool :=
  existsb (fun p => String.eqb (fst p) k) params.

Fixpoint bind_positional (fname : string) (params : list param)
    (args : list pyval) : Outcome dict :=
  match args, params with
  | [], _ => Return []
  | a :: args', (p, _) :: params' =>
      match bind_positional fname params' args' with
      | Return b => Return ((p, a) :: b)
      | Raise e => Raise e
      end
  | _ :: _, [] => Raise (type_error fname "takes too many positional arguments")
  end.

Fixpoint bind_keywords (fname : string) (params : list param)
    (kws : dict) (bound extra : dict) : Outcome (dict * dict) :=
  match kws with
  | [] => Return (bound, extra)
  | (k, v) :: kws' =>
      if is_param params k then
        if has_key bound k
        then Raise (type_error fname ("got multiple values for argument '" +:+ k +:+ "'"))
        else bind_keywords fname params kws' (bound ++ [(k, v)]) extra
      else
        if has_key extra k
        then Raise (type_error fname ("got multiple values for keyword argument '" +:+ k +:+ "'"))
        else bind_keywords fname params kws' bound (extra ++ [(k, v)])
  end.

Fixpoint fill_defaults (fname : string) (params : list param)
    (bound : dict) : Outcome (list pyval) :=
  match params with
  | [] => Return []
  | (p, dflt) :: params' =>
      match dict_get bound p, dflt with
      | Some v, _ | None, Some v =>
          match fill_defaults fname params' bound with
          | Return vs => Return (v :: vs)
          | Raise e => Raise e
          end
      | None, None =>
          Raise (type_error fname ("missing required argument '" +:+ p +:+ "'"))
      end
  end.

(** The values of the parameters, in order, and the catch-all dict. *)
Definition bind_args (fname : string) (params : list param) (c : Call)
    : Outcome (list pyval * dict) :=
  match bind_positional fname params (pos c) with
  | Raise e => Raise e
  | Return b0 =>
      match bind_keywords fname params (kw c) b0 [] with
      | Raise e => Raise e
      | Return (bound, extra) =>
          match fill_defaults fname params bound with
          | Raise e => Raise e
          | Return vs => Return (vs, extra)
          end
      end
  end.

(** ** The world the script runs in *)

(** The trainer-state handle the engine passes to a hook. *)
Record Trainer := mkTrainer {
  epoch : Z;                          (* trainer.epoch, zero-based *)
  batch : Z;                          (* trainer.batch *)
  train_loader_len : nat;             (* len(trainer.train_loader) *)
  metrics : list (string * float);    (* trainer.metrics *)
  save_dir : string                   (* trainer.save_dir *)
}.

(** The three closures of [train_yolov8], with the variable they capture. *)
Inductive callback :=
  | Closure_on_train_epoch_end (epochs : Z)
  | Closure_on_train_batch_end (epochs : Z)
  | Closure_on_model_save.

(** The keyword arguments of [model.train]. *)
Record TrainArgs := mkTrainArgs {
  arg_data : string; arg_epochs : Z; arg_batch : Z; arg_imgsz : Z;
  arg_lr0 : float; arg_device : string; arg_project : string;
  arg_name : string; arg_exist_ok : bool; arg_verbose : bool;
  arg_plots : bool; arg_patience : Z
}.

(** The calls made to the engine, in order. *)
Inductive engine_call :=
  | Call_YOLO (path : string)
  | Call_add_callback (event : string)
  | Call_train (args : TrainArgs).

Record World := mkWorld {
  stdout : list dict;                        (* the records printed so far *)
  fs : gset string;                          (* the paths that exist *)
  callbacks : list (string * callback);      (* model.callbacks *)
  engine_calls : list engine_call;
  clock : float                              (* time.time() *)
}.

Definition print_record (ev : dict) (w : World) : World :=
  mkWorld (stdout w ++ [ev]) (fs w) (callbacks w) (engine_calls w) (clock w).

Definition record_call (c : engine_call) (w : World) : World :=
  mkWorld (stdout w) (fs w) (callbacks w) (engine_calls w ++ [c]) (clock w).

Definition register (event : string) (cb : callback) (w : World) : World :=
  mkWorld (stdout w) (fs w) (callbacks w ++ [(event, cb)]) (engine_calls w) (clock w).

Definition set_fs (f : gset string) (w : World) : World :=
  mkWorld (stdout w) f (callbacks w) (engine_calls w) (clock w).

Definition set_clock (t : float) (w : World) : World :=
  mkWorld (stdout w) (fs w) (callbacks w) (engine_calls w) t.

(** ** The state-and-exception monad *)

Definition M (A : Type) : Type := World -> Outcome A * World.

Definition ret {A} (a : A) : M A := fun w => (Return a, w).

Definition bind {A B} (m : M A) (k : A -> M B) : M B :=
  fun w =>
    match m w with
    | (Return a, w') => k a w'
    | (Raise e, w') => (Raise e, w')
    end.

Definition raise {A} (e : exn) : M A := fun w => (Raise e, w).

Definition lift {A} (o : Outcome A) : M A := fun w => (o, w).

Definition modify (f : World -> World) : M unit := fun w => (Return tt, f w).

Definition gets {A} (f : World -> A) : M A := fun w => (Return (f w), w).

Declare Scope py_scope.
Delimit Scope py_scope with py.
Notation "x <- m ;; k" := (bind m (fun x => k))
  (at level 100, m at next level, right associativity) : py_scope.
Notation "m ;; k" := (bind m (fun _ => k))
  (at level 100, right associativity) : py_scope.
Open Scope py_scope.

(** [try: body except <class>: handler ...]: the first clause whose class
    matches handles the exception; what a handler raises propagates. *)
Fixpoint find_handler {A} (hs : list ((exn -> bool) * (exn -> M A))) (e : exn)
    : option (M A) :=
  match hs with
  | [] => None
  | (matches, h) :: hs' => if matches e then Some (h e) else find_handler hs' e
  end.

Definition try_except {A} (body : M A)
    (hs : list ((exn -> bool) * (exn -> M A))) : M A :=
  fun w =>
    match body w with
    | (Return a, w') => (Return a, w')
    | (Raise e, w') =>
        match find_handler hs e with
        | Some h => h w'
        | None => (Raise e, w')
        end
    end.

(** [sys.exit(code)] *)
Definition sys_exit {A} (code : Z) : M A := raise (SystemExit code).

(** ** Event emitter (lines 14-47) *)

(** [def emit(event_type: str, **kwargs)] *)
Definition emit (c : Call) : M unit :=
  r <- lift (bind_args "emit" [("event_type", None)] c) ;;
  match r with
  | ([event_type], kwargs) =>
      let event := dict_update [("type", event_type)] kwargs in
      modify (print_record event)
  | _ => raise (type_error "emit" "bad binding")
  end.

(** [def log(level: str, message: str)] *)
Definition log (level message : string) : M unit :=
  emit (mkCall [PyStr "log"] [("level", PyStr level); ("message", PyStr message)]).

(** [def progress(epoch, total_epochs, step=None, total_steps=None)] *)
Definition progress (epoch total_epochs : Z) (step total_steps : option Z) : M unit :=
  emit (mkCall [PyStr "progress"]
          [("epoch", PyInt epoch); ("totalEpochs", PyInt total_epochs);
           ("step", opt_int step); ("totalSteps", opt_int total_steps)]).

(** [def metric(epoch, loss, accuracy=None, step=None, **extra)] *)
Definition metric_params : list param :=
  [("epoch", None); ("loss", None); ("accuracy", Some PyNone); ("step", Some PyNone)].

Definition metric_data (epoch loss accuracy step : pyval) (extra : dict) : dict :=
  let data := [("epoch", epoch); ("loss", loss)] in
  let data := if is_not_None accuracy then dict_set data "accuracy" accuracy else data in
  let data := if is_not_None step then dict_set data "step" step else data in
  dict_update data extra.

Definition metric (c : Call) : M unit :=
  r <- lift (bind_args "metric" metric_params c) ;;
  match r with
  | ([epoch; loss; accuracy; step], extra) =>
      emit (mkCall [PyStr "metric"] (metric_data epoch loss accuracy step extra))
  | _ => raise (type_error "metric" "bad binding")
  end.

(** [def checkpoint(path: str, epoch: int)] *)
Definition checkpoint (path : string) (epoch : Z) : M unit :=
  emit (mkCall [PyStr "checkpoint"] [("path", PyStr path); ("epoch", PyInt epoch)]).

(** [def completed(final_loss, final_accuracy, duration)] *)
Definition completed (final_loss final_accuracy duration : float) : M unit :=
  emit (mkCall [PyStr "completed"]
          [("finalLoss", PyFloat final_loss); ("finalAccuracy", PyFloat final_accuracy);
           ("duration", PyFloat duration)]).

(** [def error(message: str)] *)
Definition error (message : string) : M unit :=
  emit (mkCall [PyStr "error"] [("message", PyStr message)]).

(** ** The training engine, as the script sees it *)

(** What the blocking [model.train] call does before it returns or raises. *)
Inductive engine_step :=
  | Fire (event : string) (trainer : Trainer)   (* run the callbacks of [event] *)
  | Persist (path : string)                     (* the engine writes a file *)
  | Unlink (path : string)                      (* a file goes away *)
  | Elapse (t : float).                         (* the wall clock moves to [t] *)

(** The value [model.train] returns: its [results_dict] when it has one. *)
Definition results := option (list (string * float)).

Record Engine := mkEngine {
  import_outcome : option exn;          (* lines 63-68: [None] when they succeed *)
  YOLO_outcome : string -> option exn;  (* [YOLO(path)]: [None] when it builds a model *)
  train_steps : list engine_step;
  train_outcome : Outcome results
}.

(** The parameters of [train_yolov8]. *)
Record Config := mkConfig {
  model_variant : string;
  dataset : string;
  epochs : Z;
  batch_size : Z;
  image_size : Z;
  learning_rate : float;
  output_dir : string;
  resume : bool;
  device : string
}.

(** [float(m.get(key, 0))] on a mapping of floats *)
Fixpoint get_float (m : list (string * float)) (key : string) : float :=
  match m with
  | [] => 0%float
  | (k, x) :: m' => if String.eqb k key then x else get_float m' key
  end.

(** [os.path.exists(p)], [Path(p).exists()] *)
Definition path_exists (p : string) : M bool :=
  gets (fun w => bool_decide (p ∈ fs w)).

(** [time.time()] *)
Definition time_time : M float := gets clock.

(** ** Reading the stream *)

Definition event_type (ev : dict) : option pyval := dict_get ev "type".

Definition has_type (ty : string) (ev : dict) : bool :=
  match event_type ev with
  | Some (PyStr s) => String.eqb s ty
  | _ => false
  end.

(** [completed] and [error] close the stream. *)
Definition is_terminal (ev : dict) : bool :=
  has_type "completed" ev || has_type "error" ev.

Definition is_warning_log (ev : dict) : bool :=
  has_type "log" ev &&
  match dict_get ev "level" with
  | Some (PyStr "warning") => true
  | _ => false
  end.

(** ** Sample inputs, for the concrete checks *)

Definition sample_format (spec : string) (x : float) : string := "<" +:+ spec +:+ ">".
Definition sample_str (x : float) : string := "<float>".
Definition sample_join (p : string) (cs : list string) : string :=
  fold_left (fun acc c => acc +:+ "/" +:+ c) cs p.

Definition world0 : World := mkWorld [] ∅ [] [] 0%float.

Definition default_config : Config :=
  mkConfig "yolov8n" "coco128" 3 16 640 0x1.47ae147ae147bp-7%float (* 0.01 *)
    "runs/detect" false "mps".

Definition sample_trainer (e b : Z) : Trainer :=
  mkTrainer e b 40
    [("train/box_loss", 1.5%float); ("train/cls_loss", 2.25%float);
     ("train/dfl_loss", 0.5%float); ("metrics/mAP50(B)", 0.75%float);
     ("metrics/mAP50-95(B)", 0.5%float)]
    "runs/detect/train".

Definition sample_engine : Engine :=
  mkEngine None (fun _ => None)
    [Fire "on_train_batch_end" (sample_trainer 0 0);
     Fire "on_train_batch_end" (sample_trainer 0 7);
     Fire "on_train_epoch_end" (sample_trainer 0 39);
     Persist "runs/detect/train/weights/last.pt";
     Persist "runs/detect/train/weights/best.pt";
     Fire "on_model_save" (sample_trainer 0 39);
     Elapse 12.5%float]
    (Return (Some [("metrics/mAP50(B)", 0.75%float); ("train/box_loss", 1.5%float)])).

Definition engine_without_ultralytics : Engine :=
  mkEngine (Some (PyException ModuleNotFoundError "No module named 'ultralytics'"))
    (fun _ => None) [] (Return None).

Definition interrupted_engine : Engine :=
  mkEngine None (fun _ => None)
    [Fire "on_train_batch_end" (sample_trainer 0 0);
     Fire "on_train_epoch_end" (sample_trainer 0 39)]
    (Raise KeyboardInterrupt).

Definition boom : exn := PyException (OtherException "RuntimeError") "boom".

Definition failing_engine : Engine :=
  mkEngine None (fun _ => None)
    [Fire "on_train_batch_end" (sample_trainer 0 0)] (Raise boom).

Definition exiting_engine : Engine :=
  mkEngine None (fun _ => None) [] (Raise (SystemExit 3)).

Definition broken_import_engine : Engine :=
  mkEngine (Some (PyException (OtherException "OSError") "libtorch.so: cannot open"))
    (fun _ => None) [] (Return None).

(** The engine writes [last.pt] only, then reports the save. *)
Definition engine_saving_last_only : Engine :=
  mkEngine None (fun _ => None)
    [Fire "on_train_epoch_end" (sample_trainer 0 39);
     Persist "runs/detect/train/weights/last.pt";
     Fire "on_model_save" (sample_trainer 0 39)]
    (Return (Some [("metrics/mAP50(B)", 0.75%float)])).

Definition resume_config : Config :=
  mkConfig "yolov8n" "coco128" 3 16 640 0x1.47ae147ae147bp-7%float
    "runs/detect" true "mps".

Definition world_with_last : World :=
  mkWorld [] {["runs/detect/weights/last.pt"%string]} [] [] 0%float.

(** ** Vocabulary of the statements *)

Definition log_event (level message : string) : dict :=
  [("type", PyStr "log"); ("level", PyStr level); ("message", PyStr message)].

Definition progress_event (epoch total_epochs : Z) (step total_steps : option Z) : dict :=
  [("type", PyStr "progress"); ("epoch", PyInt epoch);
   ("totalEpochs", PyInt total_epochs);
   ("step", opt_int step); ("totalSteps", opt_int total_steps)].

Definition checkpoint_event (path : string) (epoch : Z) : dict :=
  [("type", PyStr "checkpoint"); ("path", PyStr path); ("epoch", PyInt epoch)].

Definition completed_event (final_loss final_accuracy duration : float) : dict :=
  [("type", PyStr "completed"); ("finalLoss", PyFloat final_loss);
   ("finalAccuracy", PyFloat final_accuracy); ("duration", PyFloat duration)].

Definition error_event (message : string) : dict :=
  [("type", PyStr "error"); ("message", PyStr message)].

(** Neither a terminal event nor a warning. *)
Definition ordinary (ev : dict) : bool :=
  negb (is_terminal ev) && negb (is_warning_log ev).

Definition print_all (evs : list dict) (w : World) : World :=
  fold_left (fun w ev => print_record ev w) evs w.

(** The metric record of the epoch-end hook. *)
Definition epoch_metric_event (epoch : Z) (metrics : list (string * float)) : dict :=
  let box_loss := get_float metrics "train/box_loss" in
  let cls_loss := get_float metrics "train/cls_loss" in
  let dfl_loss := get_float metrics "train/dfl_loss" in
  let map50 := get_float metrics "metrics/mAP50(B)" in
  [("type", PyStr "metric"); ("epoch", PyInt epoch);
   ("loss", PyFloat (box_loss + cls_loss + dfl_loss)%float);
   ("accuracy", PyFloat map50); ("mAP50", PyFloat map50);
   ("mAP50_95", PyFloat (get_float metrics "metrics/mAP50-95(B)"));
   ("box_loss", PyFloat box_loss); ("cls_loss", PyFloat cls_loss);
   ("dfl_loss", PyFloat dfl_loss)].

(** [m] returns, prints ordinary records only, and calls nothing on the
    engine. *)
Definition quiet {A} (m : M A) : Prop :=
  forall w, exists a evs w',
    m w = (Return a, w')
    /\ stdout w' = stdout w ++ evs
    /\ forallb ordinary evs = true
    /\ engine_calls w' = engine_calls w
    /\ callbacks w' = callbacks w.

Definition last_pt (cfg : Config) : string := output_dir cfg +:+ "/weights/last.pt".

(** The path [load_model] hands to the model constructor. *)
Definition model_path (cfg : Config) (w : World) : string :=
  if resume cfg && bool_decide (last_pt cfg ∈ fs w)
  then last_pt cfg
  else model_variant cfg +:+ ".pt".

Definition is_Call_YOLO (c : engine_call) : bool :=
  match c with Call_YOLO _ => true | _ => false end.

Definition with_resume (b : bool) (cfg : Config) : Config :=
  mkConfig (model_variant cfg) (dataset cfg) (epochs cfg) (batch_size cfg)
    (image_size cfg) (learning_rate cfg) (output_dir cfg) b (device cfg).

(** [x] is the entry of the mapping [m] under [key], or zero when [m] has
    no such key: what [float(m.get(key, 0))] is to return, stated on the
    entries of [m]. *)
Definition reads (m : list (string * float)) (key : string) (x : float) : Prop :=
  (key, x) ∈ m \/ ((key ∉ map fst m) /\ x = 0%float).

(** The exception a run meets once the import has succeeded: the one the
    model constructor raises, else the one the training call raises. *)
Definition fault (E : Engine) (cfg : Config) (w : World) : option exn :=
  match YOLO_outcome E (model_path cfg w) with
  | Some e => Some e
  | None =>
      match train_outcome E with
      | Raise e => Some e
      | Return _ => None
      end
  end.

(** The fields [metric] sets from its named parameters, in order. *)
Definition metric_fields (epoch loss accuracy step : pyval) : dict :=
  [("epoch", epoch); ("loss", loss)]
  ++ (if is_not_None accuracy then [("accuracy", accuracy)] else [])
  ++ (if is_not_None step then [("step", step)] else []).

Section Controller.

(** [format(x, spec)] for a float, as in [f"{x:.4f}"] *)
Variable format_float : string -> float -> string.
(** [str(x)] for a float, as in [f"{x}"] *)
Variable str_float : float -> string.
(** [str(Path(p) / c1 / ... / cn)] *)
Variable path_join : string -> list string -> string.

(** *** The hooks (lines 90-131) *)

Definition on_train_epoch_end (epochs : Z) (trainer : Trainer) : M unit :=
  let epoch := epoch trainer + 1 in
  let metrics := metrics trainer in
  let box_loss := get_float metrics "train/box_loss" in
  let cls_loss := get_float metrics "train/cls_loss" in
  let dfl_loss := get_float metrics "train/dfl_loss" in
  let total_loss := (box_loss + cls_loss + dfl_loss)%float in
  let map50 := get_float metrics "metrics/mAP50(B)" in
  let map50_95 := get_float metrics "metrics/mAP50-95(B)" in
  metric (mkCall []
    [("epoch", PyInt epoch); ("loss", PyFloat total_loss);
     ("accuracy", PyFloat map50); ("mAP50", PyFloat map50);
     ("mAP50_95", PyFloat map50_95); ("box_loss", PyFloat box_loss);
     ("cls_loss", PyFloat cls_loss); ("dfl_loss", PyFloat dfl_loss)]) ;;
  progress epoch epochs None None ;;
  log "info" ("Epoch " +:+ str_int epoch +:+ "/" +:+ str_int epochs
              +:+ " - Loss: " +:+ format_float ".4f" total_loss
              +:+ ", mAP50: " +:+ format_float ".4f" map50
              +:+ ", mAP50-95: " +:+ format_float ".4f" map50_95).

Definition on_train_batch_end (epochs : Z) (trainer : Trainer) : M unit :=
  if batch trainer mod 10 =? 0 then
    progress (epoch trainer + 1) epochs
      (Some (batch trainer)) (Some (Z.of_nat (train_loader_len trainer)))
  else ret tt.

Definition on_model_save (trainer : Trainer) : M unit :=
  let save_dir := save_dir trainer in
  checkpoint (path_join save_dir ["weights"; "best.pt"]) (epoch trainer + 1).

Definition call_callback (cb : callback) (trainer : Trainer) : M unit :=
  match cb with
  | Closure_on_train_epoch_end epochs => on_train_epoch_end epochs trainer
  | Closure_on_train_batch_end epochs => on_train_batch_end epochs trainer
  | Closure_on_model_save => on_model_save trainer
  end.

(** *** The engine's side of the calls *)

(** The callbacks registered for [event], in registration order; an
    exception in a callback propagates out of [train]. *)
Fixpoint run_callbacks (cbs : list (string * callback)) (event : string)
    (trainer : Trainer) : M unit :=
  match cbs with
  | [] => ret tt
  | (ev, cb) :: cbs' =>
      (if String.eqb ev event then call_callback cb trainer else ret tt) ;;
      run_callbacks cbs' event trainer
  end.

Fixpoint engine_run (steps : list engine_step) : M unit :=
  match steps with
  | [] => ret tt
  | Fire event trainer :: steps' =>
      cbs <- gets callbacks ;;
      run_callbacks cbs event trainer ;;
      engine_run steps'
  | Persist p :: steps' =>
      modify (fun w => set_fs ({[p]} ∪ fs w) w) ;; engine_run steps'
  | Unlink p :: steps' =>
      modify (fun w => set_fs (fs w ∖ {[p]}) w) ;; engine_run steps'
  | Elapse t :: steps' =>
      modify (set_clock t) ;; engine_run steps'
  end.

(** [from ultralytics import YOLO ... LOGGER.setLevel(logging.WARNING)] *)
Definition import_ultralytics (E : Engine) : M unit :=
  match import_outcome E with
  | None => ret tt
  | Some e => raise e
  end.

(** [YOLO(path)] *)
Definition YOLO (E : Engine) (path : string) : M unit :=
  modify (record_call (Call_YOLO path)) ;;
  match YOLO_outcome E path with
  | None => ret tt
  | Some e => raise e
  end.

(** [model.add_callback(event, func)] *)
Definition add_callback (event : string) (cb : callback) : M unit :=
  modify (record_call (Call_add_callback event)) ;;
  modify (register event cb).

(** [model.train(...)] *)
Definition model_train (E : Engine) (args : TrainArgs) : M results :=
  modify (record_call (Call_train args)) ;;
  engine_run (train_steps E) ;;
  lift (train_outcome E).

(** *** The job controller (lines 49-179) *)

(** Lines 157-172: after the blocking call has returned. *)
Definition finish (cfg : Config) (start_time : float) (results : results) : M unit :=
  now <- time_time ;;
  let duration := (now - start_time)%float in
  let final_metrics := match results with Some d => d | None => [] end in
  let final_map50 := get_float final_metrics "metrics/mAP50(B)" in
  let final_loss := (get_float final_metrics "train/box_loss"
                     + get_float final_metrics "train/cls_loss"
                     + get_float final_metrics "train/dfl_loss")%float in
  log "info" ("Training completed in " +:+ format_float ".1f" duration +:+ "s") ;;
  log "info" ("Final mAP50: " +:+ format_float ".4f" final_map50) ;;
  let best_weights := path_join (output_dir cfg) ["train"; "weights"; "best.pt"] in
  best_exists <- path_exists best_weights ;;
  (if best_exists : bool then checkpoint best_weights (epochs cfg) else ret tt) ;;
  completed final_loss final_map50 duration.

(** Lines 82-87: the model to start from.  [resume and os.path.exists(...)]
    looks at the filesystem only when [resume] is set. *)
Definition load_model (E : Engine) (cfg : Config) : M unit :=
  resuming <- (if resume cfg
               then path_exists (output_dir cfg +:+ "/weights/last.pt")
               else ret false) ;;
  if resuming : bool then
    log "info" "Resuming from last checkpoint..." ;;
    YOLO E (output_dir cfg +:+ "/weights/last.pt")
  else
    log "info" ("Loading pretrained " +:+ model_variant cfg +:+ " model...") ;;
    YOLO E (model_variant cfg +:+ ".pt").

Definition train_args (cfg : Config) : TrainArgs :=
  {| arg_data := dataset cfg; arg_epochs := epochs cfg;
     arg_batch := batch_size cfg; arg_imgsz := image_size cfg;
     arg_lr0 := learning_rate cfg; arg_device := device cfg;
     arg_project := output_dir cfg; arg_name := "train";
     arg_exist_ok := true; arg_verbose := false; arg_plots := true;
     arg_patience := 0 |}.

(** Lines 81-172: the body of the second [try]. *)
Definition train_body (E : Engine) (cfg : Config) (start_time : float) : M unit :=
  load_model E cfg ;;
  add_callback "on_train_epoch_end" (Closure_on_train_epoch_end (epochs cfg)) ;;
  add_callback "on_train_batch_end" (Closure_on_train_batch_end (epochs cfg)) ;;
  add_callback "on_model_save" Closure_on_model_save ;;
  log "info" "Starting training..." ;;
  results <- model_train E (train_args cfg) ;;
  finish cfg start_time results.

Definition on_ImportError (e : exn) : M unit :=
  error "Ultralytics not installed. Run: pip install ultralytics" ;;
  sys_exit 1.

Definition on_KeyboardInterrupt (e : exn) : M unit :=
  log "warning" "Training interrupted by user" ;;
  sys_exit 0.

Definition on_Exception (e : exn) : M unit :=
  error ("Training failed: " +:+ str_exn e) ;;
  sys_exit 1.

(** Lines 74-78: the four start-up log lines. *)
Definition announce (cfg : Config) : M unit :=
  log "info" "Initializing YOLOv8 training..." ;;
  log "info" ("Model: " +:+ model_variant cfg +:+ ", Dataset: " +:+ dataset cfg
              +:+ ", Epochs: " +:+ str_int (epochs cfg)) ;;
  log "info" ("Batch size: " +:+ str_int (batch_size cfg) +:+ ", Image size: "
              +:+ str_int (image_size cfg) +:+ ", LR: " +:+ str_float (learning_rate cfg)) ;;
  log "info" ("Device: " +:+ device cfg).

Definition train_yolov8 (E : Engine) (cfg : Config) : M unit :=
  try_except (import_ultralytics E)
    [(isinstance_ImportError, on_ImportError)] ;;
  start_time <- time_time ;;
  announce cfg ;;
  try_except (train_body E cfg start_time)
    [(isinstance_KeyboardInterrupt, on_KeyboardInterrupt);
     (isinstance_Exception, on_Exception)].

(** *** Vocabulary that depends on the library functions *)

Definition best_pt (cfg : Config) : string :=
  path_join (output_dir cfg) ["train"; "weights"; "best.pt"].

(** The engine calls of a run that reaches [model.train]. *)
Definition calls_to_train (cfg : Config) (w : World) : list engine_call :=
  [Call_YOLO (model_path cfg w);
   Call_add_callback "on_train_epoch_end";
   Call_add_callback "on_train_batch_end";
   Call_add_callback "on_model_save";
   Call_train (train_args cfg)].

Definition announce_events (cfg : Config) : list dict :=
  [log_event "info" "Initializing YOLOv8 training...";
   log_event "info" ("Model: " +:+ model_variant cfg +:+ ", Dataset: " +:+ dataset cfg
                     +:+ ", Epochs: " +:+ str_int (epochs cfg));
   log_event "info" ("Batch size: " +:+ str_int (batch_size cfg) +:+ ", Image size: "
                     +:+ str_int (image_size cfg) +:+ ", LR: "
                     +:+ str_float (learning_rate cfg));
   log_event "info" ("Device: " +:+ device cfg)].

Definition handlers : list ((exn -> bool) * (exn -> M unit)) :=
  [(isinstance_KeyboardInterrupt, on_KeyboardInterrupt);
   (isinstance_Exception, on_Exception)].

(** *** The stream of a whole run, as a function of the engine's behaviour *)

(** The free text of the epoch-end log line. *)
Definition epoch_message (epochs : Z) (trainer : Trainer) : string :=
  "Epoch " +:+ str_int (epoch trainer + 1) +:+ "/" +:+ str_int epochs
  +:+ " - Loss: "
  +:+ format_float ".4f"
        (get_float (metrics trainer) "train/box_loss"
         + get_float (metrics trainer) "train/cls_loss"
         + get_float (metrics trainer) "train/dfl_loss")%float
  +:+ ", mAP50: "
  +:+ format_float ".4f" (get_float (metrics trainer) "metrics/mAP50(B)")
  +:+ ", mAP50-95: "
  +:+ format_float ".4f" (get_float (metrics trainer) "metrics/mAP50-95(B)").

(** The callbacks of a model on which [train_yolov8] alone has registered. *)
Definition registered (epochs : Z) : list (string * callback) :=
  [("on_train_epoch_end", Closure_on_train_epoch_end epochs);
   ("on_train_batch_end", Closure_on_train_batch_end epochs);
   ("on_model_save", Closure_on_model_save)].

(** The records one step of the engine makes the three hooks print. *)
Definition step_events (epochs : Z) (s : engine_step) : list dict :=
  match s with
  | Fire event trainer =>
      (if String.eqb "on_train_epoch_end" event
       then [epoch_metric_event (epoch trainer + 1) (metrics trainer);
             progress_event (epoch trainer + 1) epochs None None;
             log_event "info" (epoch_message epochs trainer)]
       else [])
      ++ (if String.eqb "on_train_batch_end" event
          then if batch trainer mod 10 =? 0
               then [progress_event (epoch trainer + 1) epochs
                       (Some (batch trainer))
                       (Some (Z.of_nat (train_loader_len trainer)))]
               else []
          else [])
      ++ (if String.eqb "on_model_save" event
          then [checkpoint_event (path_join (save_dir trainer) ["weights"; "best.pt"])
                  (epoch trainer + 1)]
          else [])
  | _ => []
  end.

(** The filesystem and the clock after the engine's steps. *)
Definition fs_after (steps : list engine_step) (f : gset string) : gset string :=
  fold_left (fun f s =>
               match s with
               | Persist p => {[p]} ∪ f
               | Unlink p => f ∖ {[p]}
               | _ => f
               end) steps f.

Definition clock_after (steps : list engine_step) (t : float) : float :=
  fold_left (fun t s => match s with Elapse t' => t' | _ => t end) steps t.

(** The text of the model-load log line. *)
Definition load_message (cfg : Config) (w : World) : string :=
  if resume cfg && bool_decide (last_pt cfg ∈ fs w)
  then "Resuming from last checkpoint..."
  else "Loading pretrained " +:+ model_variant cfg +:+ " model...".

Definition final_loss_of (res : results) : float :=
  let final_metrics := match res with Some d => d | None => [] end in
  (get_float final_metrics "train/box_loss"
   + get_float final_metrics "train/cls_loss"
   + get_float final_metrics "train/dfl_loss")%float.

Definition final_map50_of (res : results) : float :=
  get_float (match res with Some d => d | None => [] end) "metrics/mAP50(B)".

(** The records printed after the training call has returned at time
    [now], on filesystem [f]. *)
Definition finish_events (cfg : Config) (start_time now : float)
    (f : gset string) (res : results) : list dict :=
  [log_event "info"
     ("Training completed in " +:+ format_float ".1f" (now - start_time)%float +:+ "s");
   log_event "info" ("Final mAP50: " +:+ format_float ".4f" (final_map50_of res))]
  ++ (if bool_decide (best_pt cfg ∈ f)
      then [checkpoint_event (best_pt cfg) (epochs cfg)]
      else [])
  ++ [completed_event (final_loss_of res) (final_map50_of res) (now - start_time)%float].

(** The records that close the stream, by the way the training call ends. *)
Definition closing_events (cfg : Config) (start_time now : float)
    (f : gset string) (o : Outcome results) : list dict :=
  match o with
  | Return res => finish_events cfg start_time now f res
  | Raise KeyboardInterrupt => [log_event "warning" "Training interrupted by user"]
  | Raise (PyException cls msg) => [error_event ("Training failed: " +:+ msg)]
  | Raise _ => []
  end.

(** How the run ends, by the way the training call ends. *)
Definition run_outcome (o : Outcome results) : Outcome unit :=
  match o with
  | Return _ => Return tt
  | Raise KeyboardInterrupt => Raise (SystemExit 0)
  | Raise (PyException _ _) => Raise (SystemExit 1)
  | Raise e => Raise e
  end.

Definition is_fire (event : string) (s : engine_step) : bool :=
  match s with Fire ev _ => String.eqb event ev | _ => false end.

(** A firing of the batch-end hook on a batch index that 10 divides. *)
Definition is_sampled_batch (s : engine_step) : bool :=
  match s with
  | Fire ev trainer => String.eqb "on_train_batch_end" ev && (batch trainer mod 10 =? 0)
  | _ => false
  end.

(** The epoch and the total of a progress record. *)
Definition progress_epoch (ev : dict) : option (Z * Z) :=
  if has_type "progress" ev then
    match dict_get ev "epoch", dict_get ev "totalEpochs" with
    | Some (PyInt e), Some (PyInt t) => Some (e, t)
    | _, _ => None
    end
  else None.

(** The trainer states of the steps for which a hook prints a progress
    record: epoch ends and sampled batches. *)
Definition progress_step (s : engine_step) : option Trainer :=
  match s with
  | Fire ev trainer =>
      if String.eqb "on_train_epoch_end" ev || is_sampled_batch s
      then Some trainer else None
  | _ => None
  end.

(** ** Properties *)

(** *** The records each emitter prints *)

Lemma log_run level message w :
  log level message w = (Return tt, print_record (log_event level message) w).
Proof. reflexivity. Qed.

Lemma progress_run epoch total_epochs step total_steps w :
  progress epoch total_epochs step total_steps w
  = (Return tt, print_record (progress_event epoch total_epochs step total_steps) w).
Proof. reflexivity. Qed.

Lemma checkpoint_run path epoch w :
  checkpoint path epoch w = (Return tt, print_record (checkpoint_event path epoch) w).
Proof. reflexivity. Qed.

Lemma completed_run final_loss final_accuracy duration w :
  completed final_loss final_accuracy duration w
  = (Return tt, print_record (completed_event final_loss final_accuracy duration) w).
Proof. reflexivity. Qed.

Lemma error_run message w :
  error message w = (Return tt, print_record (error_event message) w).
Proof. reflexivity. Qed.

Lemma stdout_print_all evs w : stdout (print_all evs w) = stdout w ++ evs.
Proof.
  revert w. induction evs as [|ev evs IH]; intros w; simpl.
  - by rewrite app_nil_r.
  - rewrite IH. simpl. by rewrite <- app_assoc.
Qed.

Lemma engine_calls_print_all evs w : engine_calls (print_all evs w) = engine_calls w.
Proof. revert w. induction evs as [|ev evs IH]; intros w; simpl; [done|]. by rewrite IH. Qed.

Lemma callbacks_print_all evs w : callbacks (print_all evs w) = callbacks w.
Proof. revert w. induction evs as [|ev evs IH]; intros w; simpl; [done|]. by rewrite IH. Qed.

Lemma fs_print_all evs w : fs (print_all evs w) = fs w.
Proof. revert w. induction evs as [|ev evs IH]; intros w; simpl; [done|]. by rewrite IH. Qed.

Lemma print_all_app evs1 evs2 w :
  print_all (evs1 ++ evs2) w = print_all evs2 (print_all evs1 w).
Proof. unfold print_all. by rewrite fold_left_app. Qed.

Lemma epoch_metric_run (epoch : Z) (metrics : list (string * float)) w :
  let box_loss := get_float metrics "train/box_loss" in
  let cls_loss := get_float metrics "train/cls_loss" in
  let dfl_loss := get_float metrics "train/dfl_loss" in
  let map50 := get_float metrics "metrics/mAP50(B)" in
  let map50_95 := get_float metrics "metrics/mAP50-95(B)" in
  metric (mkCall []
    [("epoch", PyInt epoch); ("loss", PyFloat (box_loss + cls_loss + dfl_loss)%float);
     ("accuracy", PyFloat map50); ("mAP50", PyFloat map50);
     ("mAP50_95", PyFloat map50_95); ("box_loss", PyFloat box_loss);
     ("cls_loss", PyFloat cls_loss); ("dfl_loss", PyFloat dfl_loss)]) w
  = (Return tt, print_record (epoch_metric_event epoch metrics) w).
Proof. reflexivity. Qed.

(** Running a sequence whose first command returns. *)
Lemma bind_return {A B} (m : M A) (k : A -> M B) w a w' :
  m w = (Return a, w') -> bind m k w = k a w'.
Proof. intros H. unfold bind. by rewrite H. Qed.

Lemma bind_raise {A B} (m : M A) (k : A -> M B) w e w' :
  m w = (Raise e, w') -> bind m k w = (Raise e, w').
Proof. intros H. unfold bind. by rewrite H. Qed.

Lemma on_train_epoch_end_run epochs trainer w :
  on_train_epoch_end epochs trainer w
  = (Return tt,
     print_all [epoch_metric_event (epoch trainer + 1) (metrics trainer);
                progress_event (epoch trainer + 1) epochs None None;
                log_event "info"
                  ("Epoch " +:+ str_int (epoch trainer + 1) +:+ "/" +:+ str_int epochs
                   +:+ " - Loss: "
                   +:+ format_float ".4f"
                         (get_float (metrics trainer) "train/box_loss"
                          + get_float (metrics trainer) "train/cls_loss"
                          + get_float (metrics trainer) "train/dfl_loss")%float
                   +:+ ", mAP50: "
                   +:+ format_float ".4f" (get_float (metrics trainer) "metrics/mAP50(B)")
                   +:+ ", mAP50-95: "
                   +:+ format_float ".4f" (get_float (metrics trainer) "metrics/mAP50-95(B)"))] w).
Proof.
  unfold on_train_epoch_end.
  erewrite bind_return by apply epoch_metric_run.
  erewrite bind_return by apply progress_run.
  by rewrite log_run.
Qed.

(** *** The epoch-end hook *)

Lemma get_float_missing (m : list (string * float)) k :
  k ∉ map fst m -> get_float m k = 0%float.
Proof.
  induction m as [|[k' x] m IH]; [done|]. cbn [map fst get_float]. intros Hnin.
  apply not_elem_of_cons in Hnin as [Hne Hnin].
  destruct (String.eqb_spec k' k); [congruence | auto].
Qed.

(** On a mapping without repeated keys, the hook's lookup returns the
    entry of the mapping, and zero for a key the mapping does not have. *)
Lemma get_float_reads (m : list (string * float)) key x :
  NoDup (map fst m) -> reads m key x -> get_float m key = x.
Proof.
  intros Hnd [Hin|[Hnin ->]]; [|by apply get_float_missing].
  induction m as [|[k' x'] m IH]; [by apply elem_of_nil in Hin|].
  cbn [map fst] in Hnd. apply NoDup_cons in Hnd as [Hnin Hnd].
  cbn [get_float]. apply elem_of_cons in Hin as [[= -> ->]|Hin].
  - by rewrite String.eqb_refl.
  - destruct (String.eqb_spec k' key) as [->|Hne]; [|by apply IH].
    exfalso. apply Hnin. change key with (fst (key, x)).
    apply list_elem_of_In, in_map, list_elem_of_In, Hin.
Qed.

(** C4. Every invocation of the epoch-end hook returns normally and
    prints exactly three records, in the order metric, progress, log.
    With [box], [cls] and [dfl] the entries of [trainer.metrics] under
    [train/box_loss], [train/cls_loss] and [train/dfl_loss] (zero for a
    key the mapping lacks), the [loss] of the metric record is
    box + cls + dfl and the record carries [box_loss] = box,
    [cls_loss] = cls and [dfl_loss] = dfl. *)
Theorem epoch_end_emits_metric_progress_log epochs trainer w box cls dfl :
  NoDup (map fst (metrics trainer)) ->
  reads (metrics trainer) "train/box_loss" box ->
  reads (metrics trainer) "train/cls_loss" cls ->
  reads (metrics trainer) "train/dfl_loss" dfl ->
  let r := on_train_epoch_end epochs trainer w in
  fst r = Return tt /\
  exists m p l,
    stdout (snd r) = stdout w ++ [m; p; l]
    /\ has_type "metric" m = true
    /\ has_type "progress" p = true
    /\ has_type "log" l = true
    /\ dict_get m "loss" = Some (PyFloat (box + cls + dfl)%float)
    /\ dict_get m "box_loss" = Some (PyFloat box)
    /\ dict_get m "cls_loss" = Some (PyFloat cls)
    /\ dict_get m "dfl_loss" = Some (PyFloat dfl).
Proof.
  intros Hnd Hbox Hcls Hdfl. cbv zeta.
  apply (get_float_reads _ _ _ Hnd) in Hbox, Hcls, Hdfl.
  rewrite on_train_epoch_end_run. split; [reflexivity|].
  do 3 eexists. split.
  - cbn [snd]. apply stdout_print_all.
  - unfold epoch_metric_event. rewrite Hbox, Hcls, Hdfl. repeat split; reflexivity.
Qed.

(** *** The batch-end hook *)

(** C5. The batch-end hook with batch index [b] prints one progress
    record, with [step] = b and [totalSteps] = the length of the train
    loader, when 10 divides [b], and prints nothing otherwise. *)
Theorem batch_end_every_tenth epochs trainer w :
  let r := on_train_batch_end epochs trainer w in
  fst r = Return tt /\
  (((10 | batch trainer) ->
      exists ev, stdout (snd r) = stdout w ++ [ev]
        /\ has_type "progress" ev = true
        /\ dict_get ev "step" = Some (PyInt (batch trainer))
        /\ dict_get ev "totalSteps" = Some (PyInt (Z.of_nat (train_loader_len trainer))))
   /\ (~ (10 | batch trainer) -> stdout (snd r) = stdout w)).
Proof.
  cbv zeta. unfold on_train_batch_end.
  destruct (Z.eqb_spec (batch trainer mod 10) 0) as [Hz|Hnz].
  - rewrite progress_run. split; [reflexivity|]. split.
    + intros _. eexists. repeat split; reflexivity.
    + intros Hnd. exfalso. apply Hnd. by apply Z.mod_divide.
  - split; [reflexivity|]. split.
    + intros Hd. exfalso. apply Hnz. by apply Z.mod_divide.
    + reflexivity.
Qed.

(** *** The progress emitter *)

(** C7, as the code has it. An epoch-granularity call of the progress
    emitter (no [step], no [total_steps]) prints a record that does hold
    the keys [step] and [totalSteps], each with the value [None] (JSON
    null). *)
Theorem progress_epoch_granularity_nulls epoch total_epochs w :
  exists ev,
    progress epoch total_epochs None None w = (Return tt, print_record ev w)
    /\ keys ev = ["type"; "epoch"; "totalEpochs"; "step"; "totalSteps"]
    /\ dict_get ev "step" = Some PyNone
    /\ dict_get ev "totalSteps" = Some PyNone.
Proof. eexists. rewrite progress_run. repeat split; reflexivity. Qed.

(** *** What the engine's blocking call can print *)

Lemma quiet_ret {A} (a : A) : quiet (ret a).
Proof.
  intros w. exists a, [], w. rewrite app_nil_r. by repeat split.
Qed.

Lemma quiet_bind {A B} (m : M A) (k : A -> M B) :
  quiet m -> (forall a, quiet (k a)) -> quiet (bind m k).
Proof.
  intros Hm Hk w.
  destruct (Hm w) as (a & evs1 & w1 & Hrun1 & Hout1 & Hord1 & Hcalls1 & Hcbs1).
  destruct (Hk a w1) as (b & evs2 & w2 & Hrun2 & Hout2 & Hord2 & Hcalls2 & Hcbs2).
  exists b, (evs1 ++ evs2), w2. repeat split.
  - by rewrite (bind_return _ _ _ _ _ Hrun1).
  - by rewrite Hout2, Hout1, <- app_assoc.
  - by rewrite forallb_app, Hord1, Hord2.
  - congruence.
  - congruence.
Qed.

Lemma quiet_print_all evs :
  forallb ordinary evs = true -> quiet (fun w => (Return tt, print_all evs w)).
Proof.
  intros Hord w. exists tt, evs, (print_all evs w). repeat split.
  - apply stdout_print_all.
  - done.
  - apply engine_calls_print_all.
  - apply callbacks_print_all.
Qed.

Lemma quiet_ext {A} (m m' : M A) : (forall w, m w = m' w) -> quiet m' -> quiet m.
Proof.
  intros Heq Hq w. destruct (Hq w) as (a & evs & w' & Hrun & H).
  exists a, evs, w'. split; [by rewrite Heq | done].
Qed.

Lemma quiet_modify (f : World -> World) :
  (forall w, stdout (f w) = stdout w) ->
  (forall w, engine_calls (f w) = engine_calls w) ->
  (forall w, callbacks (f w) = callbacks w) ->
  quiet (modify f).
Proof.
  intros Hout Hcalls Hcbs w. exists tt, [], (f w).
  rewrite app_nil_r. by repeat split.
Qed.

Lemma quiet_gets {A} (f : World -> A) : quiet (gets f).
Proof. intros w. exists (f w), [], w. rewrite app_nil_r. by repeat split. Qed.

Lemma quiet_on_train_epoch_end epochs trainer :
  quiet (on_train_epoch_end epochs trainer).
Proof.
  eapply quiet_ext; [intros w; apply on_train_epoch_end_run|].
  by apply quiet_print_all.
Qed.

Lemma quiet_progress epoch total_epochs step total_steps :
  quiet (progress epoch total_epochs step total_steps).
Proof.
  eapply quiet_ext; [intros w; apply progress_run|].
  by apply (quiet_print_all [_]).
Qed.

Lemma quiet_checkpoint path epoch : quiet (checkpoint path epoch).
Proof.
  eapply quiet_ext; [intros w; apply checkpoint_run|].
  by apply (quiet_print_all [_]).
Qed.

Lemma quiet_log_info message : quiet (log "info" message).
Proof.
  eapply quiet_ext; [intros w; apply log_run|].
  by apply (quiet_print_all [_]).
Qed.

Lemma quiet_call_callback cb trainer : quiet (call_callback cb trainer).
Proof.
  destruct cb as [epochs|epochs|]; simpl.
  - apply quiet_on_train_epoch_end.
  - unfold on_train_batch_end.
    destruct (batch trainer mod 10 =? 0); [apply quiet_progress | apply quiet_ret].
  - apply quiet_checkpoint.
Qed.

Lemma quiet_run_callbacks cbs event trainer :
  quiet (run_callbacks cbs event trainer).
Proof.
  induction cbs as [|[ev cb] cbs IH]; simpl.
  - apply quiet_ret.
  - apply quiet_bind; [|done].
    destruct (String.eqb ev event); [apply quiet_call_callback | apply quiet_ret].
Qed.

Lemma quiet_engine_run steps : quiet (engine_run steps).
Proof.
  induction steps as [|[event trainer|p|p|t] steps IH]; simpl.
  - apply quiet_ret.
  - apply quiet_bind; [apply quiet_gets|]. intros cbs.
    apply quiet_bind; [apply quiet_run_callbacks | done].
  - apply quiet_bind; [by apply quiet_modify | done].
  - apply quiet_bind; [by apply quiet_modify | done].
  - apply quiet_bind; [by apply quiet_modify | done].
Qed.

(** *** The controller, step by step *)

Lemma finish_run cfg start_time res w :
  exists evs c,
    finish cfg start_time res w = (Return tt, print_all (evs ++ [c]) w)
    /\ forallb ordinary evs = true
    /\ has_type "completed" c = true.
Proof.
  unfold finish, time_time, path_exists.
  erewrite bind_return by reflexivity.
  erewrite bind_return by apply log_run.
  erewrite bind_return by apply log_run.
  erewrite bind_return by reflexivity.
  cbn [fs print_record].
  destruct (bool_decide _).
  - erewrite bind_return by apply checkpoint_run.
    rewrite completed_run.
    eexists [_; _; _], _. split; [reflexivity|]. by split.
  - erewrite bind_return by reflexivity.
    rewrite completed_run.
    eexists [_; _], _. split; [reflexivity|]. by split.
Qed.

Lemma load_model_run E cfg w :
  exists message,
    load_model E cfg w
    = (match YOLO_outcome E (model_path cfg w) with
       | None => Return tt
       | Some e => Raise e
       end,
       record_call (Call_YOLO (model_path cfg w))
         (print_record (log_event "info" message) w)).
Proof.
  unfold load_model, path_exists, model_path, last_pt.
  destruct (resume cfg); cbn [andb];
    erewrite bind_return by reflexivity;
    [destruct (bool_decide _)|];
    eexists; (erewrite bind_return by apply log_run);
    unfold YOLO; (erewrite bind_return by reflexivity);
    by destruct (YOLO_outcome E _).
Qed.

Lemma add_callback_run event cb w :
  add_callback event cb w
  = (Return tt, register event cb (record_call (Call_add_callback event) w)).
Proof. reflexivity. Qed.

Lemma model_train_run E args w :
  exists evs w',
    model_train E args w = (train_outcome E, w')
    /\ stdout w' = stdout w ++ evs
    /\ forallb ordinary evs = true
    /\ engine_calls w' = engine_calls w ++ [Call_train args].
Proof.
  unfold model_train.
  erewrite bind_return by reflexivity.
  destruct (quiet_engine_run (train_steps E) (record_call (Call_train args) w))
    as ([] & evs & w' & Hrun & Hout & Hord & Hcalls & _).
  erewrite bind_return by apply Hrun.
  exists evs, w'. by repeat split.
Qed.

(** The three ways the body of the second [try] can end: the model
    constructor raises, the training call raises, or the training call
    returns and [completed] is printed last. *)
Lemma train_body_cases E cfg start_time w :
  exists evs w',
    forallb ordinary evs = true /\
    ((exists e,
        YOLO_outcome E (model_path cfg w) = Some e
        /\ train_body E cfg start_time w = (Raise e, w')
        /\ stdout w' = stdout w ++ evs
        /\ engine_calls w' = engine_calls w ++ [Call_YOLO (model_path cfg w)])
     \/ (exists e,
        YOLO_outcome E (model_path cfg w) = None
        /\ train_outcome E = Raise e
        /\ train_body E cfg start_time w = (Raise e, w')
        /\ stdout w' = stdout w ++ evs
        /\ engine_calls w' = engine_calls w ++ calls_to_train cfg w)
     \/ (exists res c,
        YOLO_outcome E (model_path cfg w) = None
        /\ train_outcome E = Return res
        /\ train_body E cfg start_time w = (Return tt, w')
        /\ stdout w' = stdout w ++ evs ++ [c]
        /\ has_type "completed" c = true
        /\ engine_calls w' = engine_calls w ++ calls_to_train cfg w)).
Proof.
  unfold train_body.
  destruct (load_model_run E cfg w) as [message Hload].
  destruct (YOLO_outcome E (model_path cfg w)) as [e|] eqn:HY.
  - (* the constructor raises *)
    exists [log_event "info" message],
      (record_call (Call_YOLO (model_path cfg w))
         (print_record (log_event "info" message) w)).
    split; [reflexivity|]. left. exists e.
    split; [done|]. split; [by erewrite bind_raise by apply Hload|].
    by split.
  - erewrite bind_return by apply Hload.
    do 3 erewrite bind_return by apply add_callback_run.
    erewrite bind_return by apply log_run.
    match goal with |- context [bind (model_train E ?a) _ ?w1] =>
      destruct (model_train_run E a w1) as (evs & w2 & Htrain & Hout & Hord & Hcalls)
    end.
    cbn in Hout, Hcalls.
    destruct (train_outcome E) as [res|e] eqn:HT.
    + (* the training call returns *)
      destruct (finish_run cfg start_time res w2) as (evs' & c & Hfin & Hord' & Hc).
      exists ([log_event "info" message; log_event "info" "Starting training..."]
              ++ evs ++ evs'), (print_all (evs' ++ [c]) w2).
      split; [by rewrite !forallb_app, Hord, Hord'|].
      right; right. exists res, c. split; [done|]. split; [done|].
      split; [by erewrite bind_return by apply Htrain|].
      split; [|split; [done|]].
      * rewrite stdout_print_all, Hout. by rewrite <- !app_assoc.
      * rewrite engine_calls_print_all, Hcalls. by rewrite <- !app_assoc.
    + (* the training call raises *)
      exists ([log_event "info" message; log_event "info" "Starting training..."]
              ++ evs), w2.
      split; [by rewrite forallb_app, Hord|].
      right; left. exists e. split; [done|]. split; [done|].
      split; [by erewrite bind_raise by apply Htrain|].
      split.
      * rewrite Hout. by rewrite <- !app_assoc.
      * rewrite Hcalls. by rewrite <- !app_assoc.
Qed.

Lemma announce_run cfg w :
  announce cfg w = (Return tt, print_all (announce_events cfg) w).
Proof.
  unfold announce.
  do 3 erewrite bind_return by apply log_run.
  by rewrite log_run.
Qed.

Lemma train_yolov8_import_ok E cfg w :
  import_outcome E = None ->
  train_yolov8 E cfg w
  = try_except (train_body E cfg (clock w)) handlers
      (print_all (announce_events cfg) w).
Proof.
  intros Himp. unfold train_yolov8, import_ultralytics. rewrite Himp.
  erewrite bind_return by reflexivity.
  erewrite bind_return by reflexivity.
  by erewrite bind_return by apply announce_run.
Qed.

Lemma train_yolov8_import_raises E cfg w e :
  import_outcome E = Some e ->
  train_yolov8 E cfg w
  = if isinstance_ImportError e
    then (Raise (SystemExit 1),
          print_record
            (error_event "Ultralytics not installed. Run: pip install ultralytics") w)
    else (Raise e, w).
Proof.
  intros Himp. unfold train_yolov8, import_ultralytics. rewrite Himp.
  unfold bind at 1. unfold try_except, raise. cbn [find_handler].
  destruct (isinstance_ImportError e); [|done].
  unfold on_ImportError. by erewrite bind_return by apply error_run.
Qed.

Lemma on_KeyboardInterrupt_run e w :
  on_KeyboardInterrupt e w
  = (Raise (SystemExit 0),
     print_record (log_event "warning" "Training interrupted by user") w).
Proof. unfold on_KeyboardInterrupt. by erewrite bind_return by apply log_run. Qed.

Lemma on_Exception_run e w :
  on_Exception e w
  = (Raise (SystemExit 1),
     print_record (error_event ("Training failed: " +:+ str_exn e)) w).
Proof. unfold on_Exception. by erewrite bind_return by apply error_run. Qed.

(** What the second [try] statement makes of an exception from its body. *)
Lemma try_except_raise (body : M unit) e w w' :
  body w = (Raise e, w') ->
  try_except body handlers w
  = match e with
    | KeyboardInterrupt =>
        (Raise (SystemExit 0),
         print_record (log_event "warning" "Training interrupted by user") w')
    | PyException _ _ =>
        (Raise (SystemExit 1),
         print_record (error_event ("Training failed: " +:+ str_exn e)) w')
    | _ => (Raise e, w')
    end.
Proof.
  intros Hrun. unfold try_except. rewrite Hrun.
  by destruct e; cbn [find_handler handlers isinstance_KeyboardInterrupt
                      isinstance_Exception].
Qed.

Lemma try_except_return (body : M unit) w w' :
  body w = (Return tt, w') -> try_except body handlers w = (Return tt, w').
Proof. intros Hrun. unfold try_except. by rewrite Hrun. Qed.

Lemma model_path_print_all cfg evs w :
  model_path cfg (print_all evs w) = model_path cfg w.
Proof. unfold model_path. by rewrite fs_print_all. Qed.

Lemma ordinary_not_terminal evs :
  forallb ordinary evs = true ->
  forallb (fun ev => negb (is_terminal ev)) evs = true.
Proof.
  induction evs as [|ev evs IH]; [done|]. simpl.
  unfold ordinary at 1.
  destruct (is_terminal ev); simpl; [done|].
  destruct (is_warning_log ev); simpl; [done|]. exact IH.
Qed.

Lemma ordinary_no_terminal evs :
  forallb ordinary evs = true -> List.filter is_terminal evs = [].
Proof.
  induction evs as [|ev evs IH]; [done|]. simpl.
  unfold ordinary at 1.
  destruct (is_terminal ev); simpl; [done|].
  destruct (is_warning_log ev); simpl; [done|]. exact IH.
Qed.

Lemma ordinary_no_warning evs :
  forallb ordinary evs = true -> List.filter is_warning_log evs = [].
Proof.
  induction evs as [|ev evs IH]; [done|]. simpl.
  unfold ordinary at 1.
  destruct (is_terminal ev); simpl; [done|].
  destruct (is_warning_log ev); simpl; [done|]. exact IH.
Qed.

Lemma announce_ordinary cfg : forallb ordinary (announce_events cfg) = true.
Proof. reflexivity. Qed.

(** *** The stream of a run *)

(** C1, as the code has it. In every run of [train_yolov8] the records
    printed are a body without terminal records followed by at most one
    terminal record: at most one terminal event is emitted and nothing is
    emitted after it.  Which one is decided by the way the run ends.
    When the import raises [ImportError] the tail is the one [error]
    record of the missing dependency.  When the import succeeds: the tail
    is one [completed] record when the training call returns; one
    [error] record, with the text of the exception, when the model
    constructor or the training call raises an [Exception]; empty, after
    a warning log, when they raise [KeyboardInterrupt]; and empty as well
    when they raise any other exception ([SystemExit], [GeneratorExit]),
    which leaves the run as it is. *)
Theorem terminal_event_by_ending E cfg w :
  let r := train_yolov8 E cfg w in
  exists body tail,
    stdout (snd r) = stdout w ++ body ++ tail
    /\ forallb (fun ev => negb (is_terminal ev)) body = true
    /\ (tail = []
        \/ (exists ev, tail = [ev] /\ has_type "completed" ev = true)
        \/ (exists ev, tail = [ev] /\ has_type "error" ev = true))
    /\ match import_outcome E with
       | Some e =>
           isinstance_ImportError e = true ->
           tail = [error_event "Ultralytics not installed. Run: pip install ultralytics"]
           /\ fst r = Raise (SystemExit 1)
       | None =>
           match fault E cfg w with
           | None =>
               (exists ev, tail = [ev] /\ has_type "completed" ev = true)
               /\ fst r = Return tt
           | Some KeyboardInterrupt =>
               tail = []
               /\ last body = Some (log_event "warning" "Training interrupted by user")
               /\ fst r = Raise (SystemExit 0)
           | Some (PyException cls msg) =>
               tail = [error_event ("Training failed: " +:+ msg)]
               /\ fst r = Raise (SystemExit 1)
           | Some e => tail = [] /\ fst r = Raise e
           end
       end.
Proof.
  cbv zeta.
  destruct (import_outcome E) as [e|] eqn:Himp.
  - (* the import raises *)
    rewrite (train_yolov8_import_raises _ _ _ _ Himp).
    destruct (isinstance_ImportError e).
    + exists [], [error_event "Ultralytics not installed. Run: pip install ultralytics"].
      split; [done|]. split; [done|]. split; [|done].
      right; right. by eexists.
    + exists [], []. rewrite !app_nil_r. split; [done|]. split; [done|].
      split; [by left | done].
  - rewrite (train_yolov8_import_ok _ _ _ Himp).
    destruct (train_body_cases E cfg (clock w) (print_all (announce_events cfg) w))
      as (evs & w' & Hord & Hcases).
    rewrite model_path_print_all, stdout_print_all in Hcases.
    assert (Hbody : forallb (fun ev => negb (is_terminal ev))
                      (announce_events cfg ++ evs) = true).
    { rewrite forallb_app. by rewrite (ordinary_not_terminal _ Hord). }
    assert (Hwarn : forallb (fun ev => negb (is_terminal ev))
                      (announce_events cfg ++ evs
                       ++ [log_event "warning" "Training interrupted by user"]) = true).
    { by rewrite app_assoc, forallb_app, Hbody. }
    assert (Hlast : last (announce_events cfg ++ evs
                          ++ [log_event "warning" "Training interrupted by user"])
                    = Some (log_event "warning" "Training interrupted by user")).
    { by rewrite !last_app. }
    assert (Hraise : forall e,
               fault E cfg w = Some e ->
               train_body E cfg (clock w) (print_all (announce_events cfg) w)
               = (Raise e, w') ->
               stdout w' = (stdout w ++ announce_events cfg) ++ evs ->
               exists body tail,
                 stdout (snd (try_except
                                (train_body E cfg (clock w)) handlers
                                (print_all (announce_events cfg) w)))
                 = stdout w ++ body ++ tail
                 /\ forallb (fun ev => negb (is_terminal ev)) body = true
                 /\ (tail = []
                     \/ (exists ev, tail = [ev] /\ has_type "completed" ev = true)
                     \/ (exists ev, tail = [ev] /\ has_type "error" ev = true))
                 /\ match fault E cfg w with
                    | None =>
                        (exists ev, tail = [ev] /\ has_type "completed" ev = true)
                        /\ fst (try_except
                                  (train_body E cfg (clock w)) handlers
                                  (print_all (announce_events cfg) w)) = Return tt
                    | Some KeyboardInterrupt =>
                        tail = []
                        /\ last body
                           = Some (log_event "warning" "Training interrupted by user")
                        /\ fst (try_except
                                  (train_body E cfg (clock w)) handlers
                                  (print_all (announce_events cfg) w))
                           = Raise (SystemExit 0)
                    | Some (PyException cls msg) =>
                        tail = [error_event ("Training failed: " +:+ msg)]
                        /\ fst (try_except
                                  (train_body E cfg (clock w)) handlers
                                  (print_all (announce_events cfg) w))
                           = Raise (SystemExit 1)
                    | Some e0 =>
                        tail = []
                        /\ fst (try_except
                                  (train_body E cfg (clock w)) handlers
                                  (print_all (announce_events cfg) w)) = Raise e0
                    end).
    { intros e Hfault Hrun Hout. rewrite Hfault, (try_except_raise _ _ _ _ Hrun).
      destruct e as [|code| |cls msg]; cbn [fst snd print_record stdout str_exn];
        rewrite Hout.
      - exists (announce_events cfg ++ evs
                ++ [log_event "warning" "Training interrupted by user"]), [].
        rewrite app_nil_r, <- !app_assoc.
        split; [done|]. split; [done|]. split; [by left | done].
      - exists (announce_events cfg ++ evs), [].
        rewrite app_nil_r, <- !app_assoc.
        split; [done|]. split; [done|]. split; [by left | done].
      - exists (announce_events cfg ++ evs), [].
        rewrite app_nil_r, <- !app_assoc.
        split; [done|]. split; [done|]. split; [by left | done].
      - exists (announce_events cfg ++ evs),
          [error_event ("Training failed: " +:+ msg)].
        rewrite <- !app_assoc.
        split; [done|]. split; [done|]. split; [|done].
        right; right. by eexists. }
    destruct Hcases as [(e & HY & Hrun & Hout & _)
                       |[(e & HY & HT & Hrun & Hout & _)
                        |(res & c & HY & HT & Hrun & Hout & Hc & _)]].
    + (* the constructor raised [e] *)
      apply (Hraise e); [|done..]. unfold fault. by rewrite HY.
    + (* the training call raised [e] *)
      apply (Hraise e); [|done..]. unfold fault. by rewrite HY, HT.
    + (* the training call returned *)
      unfold fault. rewrite HY, HT.
      rewrite (try_except_return _ _ _ Hrun). cbn [fst snd]. rewrite Hout.
      exists (announce_events cfg ++ evs), [c].
      rewrite <- !app_assoc. split; [done|]. split; [done|].
      split; [right; left; by exists c|]. split; [by exists c | done].
Qed.

(** C2. When the import of the training engine raises [ImportError], the
    run prints the single record [error] and nothing else, exits through
    [sys.exit(1)], and makes no call on the engine: no model is loaded and
    no training is started. *)
Theorem missing_dependency_single_error E cfg w e :
  import_outcome E = Some e ->
  isinstance_ImportError e = true ->
  let r := train_yolov8 E cfg w in
  fst r = Raise (SystemExit 1)
  /\ stdout (snd r)
     = stdout w ++ [error_event "Ultralytics not installed. Run: pip install ultralytics"]
  /\ engine_calls (snd r) = engine_calls w
  /\ callbacks (snd r) = callbacks w.
Proof.
  intros Himp Hcls. cbv zeta.
  rewrite (train_yolov8_import_raises _ _ _ _ Himp), Hcls. by repeat split.
Qed.

(** C3. When the engine is importable, the model constructor succeeds and
    the blocking training call raises [KeyboardInterrupt], the run exits
    through [sys.exit(0)], the records it printed hold exactly one warning
    log, which is the last record, and no [completed] and no [error]
    record. *)
Theorem interrupt_during_training E cfg w :
  import_outcome E = None ->
  YOLO_outcome E (model_path cfg w) = None ->
  train_outcome E = Raise KeyboardInterrupt ->
  let r := train_yolov8 E cfg w in
  fst r = Raise (SystemExit 0)
  /\ exists new,
       stdout (snd r) = stdout w ++ new
       /\ length (List.filter is_warning_log new) = 1%nat
       /\ last new = Some (log_event "warning" "Training interrupted by user")
       /\ List.filter is_terminal new = [].
Proof.
  intros Himp HY HT. cbv zeta.
  rewrite (train_yolov8_import_ok _ _ _ Himp).
  destruct (train_body_cases E cfg (clock w) (print_all (announce_events cfg) w))
    as (evs & w' & Hord & Hcases).
  rewrite model_path_print_all, stdout_print_all in Hcases.
  destruct Hcases as [(e & HY' & _)
                     |[(e & _ & HT' & Hrun & Hout & _)
                      |(res & c & _ & HT' & _)]].
  - by rewrite HY in HY'.
  - rewrite HT in HT'. injection HT' as <-.
    rewrite (try_except_raise _ _ _ _ Hrun). cbn [fst snd print_record stdout].
    split; [done|]. rewrite Hout.
    exists (announce_events cfg ++ evs
            ++ [log_event "warning" "Training interrupted by user"]).
    split; [by rewrite <- !app_assoc|].
    rewrite !List.filter_app, (ordinary_no_warning _ Hord), (ordinary_no_terminal _ Hord).
    split; [done|]. split; [|done].
    by rewrite !last_app.
  - by rewrite HT in HT'.
Qed.

(** *** Start-up: resume or fresh load *)

Lemma load_model_fresh E cfg w :
  resume cfg && bool_decide (last_pt cfg ∈ fs w) = false ->
  load_model E cfg w = load_model E (with_resume false cfg) w.
Proof.
  intros Hfresh. unfold load_model, path_exists.
  cbn [with_resume resume output_dir model_variant].
  unfold last_pt in Hfresh.
  destruct (resume cfg); [|done]. cbn [andb] in Hfresh.
  erewrite !bind_return by reflexivity. by rewrite Hfresh.
Qed.

(** C8. When the engine is importable, the first call on the engine is
    the model constructor, and it is the only constructor call of the
    run.  It is given [<output_dir>/weights/last.pt] when the resume flag
    is set and that path exists, and [<model_variant>.pt] in every other
    case; in those cases the whole run equals the run of the same
    configuration with the resume flag off. *)
Theorem load_resume_or_fresh E cfg w :
  import_outcome E = None ->
  let r := train_yolov8 E cfg w in
  let last := output_dir cfg +:+ "/weights/last.pt" in
  let resuming := resume cfg && bool_decide (last ∈ fs w) in
  (exists rest,
      engine_calls (snd r)
      = engine_calls w
        ++ Call_YOLO (if resuming then last else model_variant cfg +:+ ".pt") :: rest
      /\ forallb (fun c => negb (is_Call_YOLO c)) rest = true)
  /\ (resuming = false -> r = train_yolov8 E (with_resume false cfg) w).
Proof.
  intros Himp. cbv zeta. split.
  - rewrite (train_yolov8_import_ok _ _ _ Himp).
    destruct (train_body_cases E cfg (clock w) (print_all (announce_events cfg) w))
      as (evs & w' & Hord & Hcases).
    rewrite model_path_print_all, engine_calls_print_all in Hcases.
    fold (last_pt cfg). fold (model_path cfg w).
    destruct Hcases as [(e & _ & Hrun & _ & Hcalls)
                       |[(e & _ & _ & Hrun & _ & Hcalls)
                        |(res & c & _ & _ & Hrun & _ & _ & Hcalls)]].
    + rewrite (try_except_raise _ _ _ _ Hrun).
      exists []. split; [|done].
      by destruct e; cbn [snd print_record engine_calls].
    + rewrite (try_except_raise _ _ _ _ Hrun).
      eexists. split; [|shelve].
      destruct e; cbn [snd print_record engine_calls]; rewrite Hcalls; reflexivity.
      Unshelve. reflexivity.
    + rewrite (try_except_return _ _ _ Hrun). cbn [snd].
      eexists. split; [rewrite Hcalls; reflexivity | reflexivity].
  - intros Hfresh.
    rewrite !(train_yolov8_import_ok _ _ _ Himp).
    assert (Hbody : train_body E cfg (clock w) (print_all (announce_events cfg) w)
                    = train_body E (with_resume false cfg) (clock w)
                        (print_all (announce_events cfg) w)).
    { unfold train_body. unfold bind at 1 5.
      rewrite load_model_fresh; [done|]. by rewrite fs_print_all. }
    unfold try_except. by rewrite Hbody.
Qed.

(** *** Faults *)

(** C9, as the code has it. When the engine is importable and the model
    constructor or the training call raises an exception that derives from
    [Exception], the run prints one [error] record, as its last record,
    whose message is ["Training failed: "] followed by the text of the
    exception, prints no other terminal record, and exits through
    [sys.exit(1)]. *)
Theorem exception_reported_as_error E cfg w e :
  import_outcome E = None ->
  isinstance_Exception e = true ->
  YOLO_outcome E (model_path cfg w) = Some e
  \/ (YOLO_outcome E (model_path cfg w) = None /\ train_outcome E = Raise e) ->
  let r := train_yolov8 E cfg w in
  fst r = Raise (SystemExit 1)
  /\ exists new,
       stdout (snd r)
       = stdout w ++ new ++ [error_event ("Training failed: " +:+ str_exn e)]
       /\ List.filter is_terminal new = [].
Proof.
  intros Himp Hexc Hraised. cbv zeta.
  rewrite (train_yolov8_import_ok _ _ _ Himp).
  destruct (train_body_cases E cfg (clock w) (print_all (announce_events cfg) w))
    as (evs & w' & Hord & Hcases).
  rewrite model_path_print_all, stdout_print_all in Hcases.
  assert (Hnew : List.filter is_terminal (announce_events cfg ++ evs) = []).
  { by rewrite List.filter_app, (ordinary_no_terminal _ Hord). }
  assert (Hrun : exists w1, train_body E cfg (clock w) (print_all (announce_events cfg) w)
                            = (Raise e, w1)
                            /\ stdout w1 = (stdout w ++ announce_events cfg) ++ evs).
  { destruct Hcases as [(e' & HY & Hrun & Hout & _)
                       |[(e' & HY & HT & Hrun & Hout & _)
                        |(res & c & HY & HT & _)]];
      destruct Hraised as [HY'|[HY' HT']]; try congruence.
    - exists w'. split; [congruence | done].
    - exists w'. split; [congruence | done]. }
  destruct Hrun as (w1 & Hrun & Hout).
  rewrite (try_except_raise _ _ _ _ Hrun).
  destruct e as [| | |cls msg]; try discriminate Hexc.
  cbn [fst snd print_record stdout]. split; [done|].
  exists (announce_events cfg ++ evs). split; [|done].
  by rewrite Hout, <- !app_assoc.
Qed.

(** *** Checkpoints *)

(** The final best-weights check: [finish] prints a checkpoint record
    only for a path that exists when it is printed. *)
Lemma finish_checkpoint_exists cfg start_time res w ev :
  ev ∈ drop (length (stdout w)) (stdout (snd (finish cfg start_time res w))) ->
  has_type "checkpoint" ev = true ->
  ev = checkpoint_event (best_pt cfg) (epochs cfg) /\ best_pt cfg ∈ fs w.
Proof.
  unfold finish, time_time, path_exists.
  erewrite bind_return by reflexivity.
  erewrite bind_return by apply log_run.
  erewrite bind_return by apply log_run.
  erewrite bind_return by reflexivity.
  cbn [fs print_record]. fold (best_pt cfg).
  destruct (bool_decide_reflect (best_pt cfg ∈ fs w)) as [Hin|Hnin].
  - erewrite bind_return by apply checkpoint_run.
    rewrite completed_run. cbn [snd print_record stdout].
    rewrite <- !app_assoc, drop_app_length. cbn [app].
    intros Hev Hty.
    repeat (apply elem_of_cons in Hev as [->|Hev]; [try discriminate Hty|]).
    + done.
    + by apply elem_of_nil in Hev.
  - erewrite bind_return by reflexivity.
    rewrite completed_run. cbn [snd print_record stdout].
    rewrite <- !app_assoc, drop_app_length. cbn [app].
    intros Hev Hty.
    repeat (apply elem_of_cons in Hev as [->|Hev]; [try discriminate Hty|]).
    by apply elem_of_nil in Hev.
Qed.

(** The model-save hook prints its checkpoint record whatever the
    filesystem holds. *)
Lemma on_model_save_run trainer w :
  on_model_save trainer w
  = (Return tt,
     print_record
       (checkpoint_event (path_join (save_dir trainer) ["weights"; "best.pt"])
          (epoch trainer + 1)) w).
Proof. reflexivity. Qed.

(** *** Dictionaries and argument binding *)

Lemma dict_get_None (d : dict) k : k ∉ keys d -> dict_get d k = None.
Proof.
  induction d as [|[k' v'] d IH]; [done|]. simpl. intros Hnin.
  apply not_elem_of_cons in Hnin as [Hne Hnin].
  destruct (String.eqb_spec k' k); [congruence | auto].
Qed.

Lemma dict_get_Some_key (d : dict) k v : dict_get d k = Some v -> k ∈ keys d.
Proof.
  induction d as [|[k' v'] d IH]; [done|]. simpl.
  destruct (String.eqb_spec k' k) as [->|Hne]; intros H.
  - apply list_elem_of_here.
  - apply list_elem_of_further. auto.
Qed.

Lemma has_key_false (d : dict) k : has_key d k = false <-> k ∉ keys d.
Proof.
  unfold has_key. split.
  - intros H Hin. induction d as [|[k' v'] d IH]; [by apply elem_of_nil in Hin|].
    simpl in *. destruct (String.eqb_spec k' k); [done|].
    apply elem_of_cons in Hin as [Heq|Hin]; [congruence | auto].
  - intros Hnin. by rewrite dict_get_None.
Qed.

Lemma dict_get_app (d1 d2 : dict) k :
  dict_get (d1 ++ d2) k
  = match dict_get d1 k with Some v => Some v | None => dict_get d2 k end.
Proof.
  induction d1 as [|[k' v'] d1 IH]; [done|]. simpl.
  by destruct (String.eqb k' k).
Qed.

Lemma dict_set_fresh (d : dict) k v :
  has_key d k = false -> dict_set d k v = d ++ [(k, v)].
Proof.
  unfold has_key. induction d as [|[k' v'] d IH]; [done|]. simpl.
  destruct (String.eqb k' k); [done|]. intros H. by rewrite IH.
Qed.

Lemma dict_get_set (d : dict) k1 v1 k :
  dict_get (dict_set d k1 v1) k
  = if String.eqb k1 k then Some v1 else dict_get d k.
Proof.
  induction d as [|[k' v'] d IH]; simpl; [done|].
  destruct (String.eqb_spec k' k1) as [->|Hne]; simpl.
  - by destruct (String.eqb k1 k).
  - rewrite IH.
    destruct (String.eqb_spec k' k) as [->|Hne'];
      destruct (String.eqb_spec k1 k); congruence.
Qed.

(** With no repeated key in [e], [d.update(e)] reads as [e] first. *)
Lemma dict_get_update (d e : dict) k :
  NoDup (keys e) ->
  dict_get (dict_update d e) k
  = match dict_get e k with Some v => Some v | None => dict_get d k end.
Proof.
  revert d. induction e as [|[k1 v1] e IH]; intros d Hnd; [done|].
  apply NoDup_cons in Hnd as [Hnin Hnd].
  unfold dict_update in *. simpl. rewrite IH by done. rewrite dict_get_set.
  destruct (String.eqb_spec k1 k) as [->|Hne]; [|done].
  by rewrite dict_get_None.
Qed.

(** Keys that are all new are appended in order. *)
Lemma dict_update_fresh (d e : dict) :
  NoDup (keys e) ->
  (forall k, k ∈ keys e -> has_key d k = false) ->
  dict_update d e = d ++ e.
Proof.
  revert d. induction e as [|[k1 v1] e IH]; intros d Hnd Hfresh.
  - by rewrite app_nil_r.
  - apply NoDup_cons in Hnd as [Hnin Hnd].
    unfold dict_update in *. simpl.
    rewrite dict_set_fresh by (apply Hfresh; apply list_elem_of_here).
    rewrite IH; [by rewrite <- app_assoc | done |].
    intros k Hk. unfold has_key. rewrite dict_get_app.
    assert (Hd : has_key d k = false) by (apply Hfresh; by apply list_elem_of_further).
    unfold has_key in Hd. destruct (dict_get d k); [done|]. simpl.
    destruct (String.eqb_spec k1 k) as [->|]; done.
Qed.

(** The catch-all never receives the name of a parameter, nor a name
    twice, and a bound parameter keeps its value. *)
Lemma bind_keywords_inv fname params kws bound extra bound' extra' :
  bind_keywords fname params kws bound extra = Return (bound', extra') ->
  NoDup (keys extra) ->
  (forall k, k ∈ keys extra -> is_param params k = false) ->
  NoDup (keys extra')
  /\ (forall k, k ∈ keys extra' -> is_param params k = false)
  /\ (forall k v, dict_get bound k = Some v -> dict_get bound' k = Some v).
Proof.
  revert bound extra.
  induction kws as [|[k v] kws IH]; intros bound extra Hrun Hnd Hnp; simpl in Hrun.
  - injection Hrun as <- <-. done.
  - destruct (is_param params k) eqn:Hk.
    + destruct (has_key bound k) eqn:Hb; [done|].
      destruct (IH _ _ Hrun Hnd Hnp) as (H1 & H2 & H3).
      split; [done|]. split; [done|].
      intros k0 v0 Hget. apply H3. rewrite dict_get_app. by rewrite Hget.
    + destruct (has_key extra k) eqn:Hx; [done|].
      apply has_key_false in Hx.
      apply IH in Hrun as (H1 & H2 & H3); [done| |].
      * unfold keys. rewrite map_app. apply NoDup_app. split; [done|].
        split; [|apply NoDup_singleton].
        intros k0 Hk0 Hin. apply list_elem_of_singleton in Hin. simpl in Hin.
        by subst.
      * intros k0 Hin. unfold keys in Hin. rewrite map_app in Hin.
        apply elem_of_app in Hin as [Hin|Hin]; [by apply Hnp|].
        apply list_elem_of_singleton in Hin. simpl in Hin. by subst.
Qed.

(** When every parameter is already bound, each keyword goes to the
    catch-all, in order. *)
Lemma bind_keywords_all_bound fname params kws bound extra bound' extra' :
  (forall k, is_param params k = true -> has_key bound k = true) ->
  bind_keywords fname params kws bound extra = Return (bound', extra') ->
  bound' = bound /\ extra' = extra ++ kws.
Proof.
  intros Hall. revert extra.
  induction kws as [|[k v] kws IH]; intros extra Hrun; simpl in Hrun.
  - injection Hrun as <- <-. by rewrite app_nil_r.
  - destruct (is_param params k) eqn:Hk.
    + by rewrite (Hall _ Hk) in Hrun.
    + destruct (has_key extra k); [done|].
      apply IH in Hrun as [-> ->]. by rewrite <- app_assoc.
Qed.

Lemma emit_inv ty kwargs w w' :
  emit (mkCall [ty] kwargs) w = (Return tt, w') ->
  w' = print_record (dict_update [("type", ty)] kwargs) w.
Proof.
  unfold emit, bind, lift, bind_args. cbn [pos kw bind_positional].
  destruct (bind_keywords _ _ _ _ _) as [[bound extra]|e] eqn:Hkw; [|done].
  apply bind_keywords_all_bound in Hkw as [-> ->].
  - cbn. by intros [= <-].
  - intros k. unfold is_param, has_key. cbn [existsb fst dict_get].
    by destruct (String.eqb "event_type" k).
Qed.

(** *** The metric emitter *)

Lemma is_param_metric k :
  is_param metric_params k = false ->
  String.eqb "epoch" k = false /\ String.eqb "loss" k = false
  /\ String.eqb "accuracy" k = false /\ String.eqb "step" k = false.
Proof.
  unfold is_param, metric_params. cbn [existsb fst].
  destruct (String.eqb "epoch" k), (String.eqb "loss" k),
    (String.eqb "accuracy" k), (String.eqb "step" k); done.
Qed.

Lemma metric_data_fresh epoch loss accuracy step extra :
  NoDup (keys extra) ->
  (forall k, k ∈ keys extra -> is_param metric_params k = false) ->
  metric_data epoch loss accuracy step extra
  = metric_fields epoch loss accuracy step ++ extra.
Proof.
  intros Hnd Hnp. unfold metric_data.
  replace (if is_not_None step
           then dict_set
                  (if is_not_None accuracy
                   then dict_set [("epoch", epoch); ("loss", loss)] "accuracy" accuracy
                   else [("epoch", epoch); ("loss", loss)]) "step" step
           else if is_not_None accuracy
                then dict_set [("epoch", epoch); ("loss", loss)] "accuracy" accuracy
                else [("epoch", epoch); ("loss", loss)])
    with (metric_fields epoch loss accuracy step)
    by (unfold metric_fields; by destruct (is_not_None accuracy), (is_not_None step)).
  apply dict_update_fresh; [done|].
  intros k Hk. apply Hnp, is_param_metric in Hk as (He & Hl & Ha & Hs).
  unfold has_key, metric_fields.
  destruct (is_not_None accuracy), (is_not_None step);
    cbn -[String.eqb]; by rewrite ?He, ?Hl, ?Ha, ?Hs.
Qed.

Lemma fill_defaults_metric bound vs :
  fill_defaults "metric" metric_params bound = Return vs ->
  exists epoch loss,
    dict_get bound "epoch" = Some epoch
    /\ dict_get bound "loss" = Some loss
    /\ vs = [epoch; loss; default PyNone (dict_get bound "accuracy");
             default PyNone (dict_get bound "step")].
Proof.
  unfold metric_params. cbn [fill_defaults].
  destruct (dict_get bound "epoch") as [e|]; [|done].
  destruct (dict_get bound "loss") as [l|]; [|done].
  intros Hvs. exists e, l. split; [done|]. split; [done|].
  destruct (dict_get bound "accuracy"), (dict_get bound "step");
    by injection Hvs as <-.
Qed.

(** The i-th positional argument is bound to the i-th parameter. *)
Lemma bind_positional_metric args b0 (i : nat) a :
  bind_positional "metric" metric_params args = Return b0 ->
  args !! i = Some a ->
  exists name, map fst metric_params !! i = Some name /\ dict_get b0 name = Some a.
Proof.
  intros Hb Ha.
  destruct args as [|a0 [|a1 [|a2 [|a3 [|a4 args]]]]]; simpl in Hb;
    try discriminate Hb; injection Hb as <-;
    destruct i as [|[|[|[|i]]]]; simpl in Ha; try discriminate Ha;
    injection Ha as <-; eexists; (split; [reflexivity|reflexivity]).
Qed.

(** C10, as the code has it. For every call of the metric emitter that
    returns, the catch-all [extra] holds none of the names [epoch],
    [loss], [accuracy], [step] (a call that gives one of them twice is
    rejected when its arguments are bound), so the printed record is the
    [type] field, then the fields of the named parameters, then the extra
    fields in their order, and it holds the values of the named
    parameters unchanged; the i-th positional argument is the value of
    the i-th named parameter. *)
Theorem metric_extras_follow_named_fields c w w' :
  metric c w = (Return tt, w') ->
  exists epoch loss accuracy step extra ev,
    bind_args "metric" metric_params c = Return ([epoch; loss; accuracy; step], extra)
    /\ (forall k, is_param metric_params k = true -> has_key extra k = false)
    /\ w' = print_record ev w
    /\ ev = dict_update [("type", PyStr "metric")]
              (metric_fields epoch loss accuracy step ++ extra)
    /\ dict_get ev "epoch" = Some epoch
    /\ dict_get ev "loss" = Some loss
    /\ (is_not_None accuracy = true -> dict_get ev "accuracy" = Some accuracy)
    /\ (is_not_None step = true -> dict_get ev "step" = Some step)
    /\ (forall (i : nat) a,
          pos c !! i = Some a -> [epoch; loss; accuracy; step] !! i = Some a).
Proof.
  intros Hrun. unfold metric, bind, lift in Hrun.
  destruct (bind_args "metric" metric_params c) as [[vs extra]|e] eqn:Hbind; [|done].
  pose proof Hbind as Hb. unfold bind_args in Hb.
  destruct (bind_positional _ _ _) as [b0|] eqn:Hpos; [|done].
  destruct (bind_keywords _ _ _ _ _) as [[bound extra']|] eqn:Hkw; [|done].
  destruct (fill_defaults _ _ _) as [vs'|] eqn:Hfill; [|done].
  injection Hb as -> ->.
  apply fill_defaults_metric in Hfill as (epoch & loss & Hepoch & Hloss & ->).
  set (accuracy := default PyNone (dict_get bound "accuracy")) in *.
  set (step := default PyNone (dict_get bound "step")) in *.
  destruct (bind_keywords_inv _ _ _ _ _ _ _ Hkw) as (Hnd & Hnp & Hkeep);
    [apply NoDup_nil_2 | by intros k Hk; apply elem_of_nil in Hk |].
  apply emit_inv in Hrun.
  rewrite (metric_data_fresh _ _ _ _ _ Hnd Hnp) in Hrun.
  assert (Hfree : forall k, is_param metric_params k = true -> has_key extra k = false).
  { intros k Hk. apply has_key_false. intros Hin. apply Hnp in Hin. congruence. }
  assert (Hget : forall k v,
             is_param metric_params k = true ->
             dict_get (metric_fields epoch loss accuracy step) k = Some v ->
             dict_get (dict_update [("type", PyStr "metric")]
                         (metric_fields epoch loss accuracy step ++ extra)) k = Some v).
  { intros k v Hk Hv. unfold dict_update. rewrite fold_left_app.
    fold (dict_update [("type", PyStr "metric")] (metric_fields epoch loss accuracy step)).
    fold (dict_update (dict_update [("type", PyStr "metric")]
                         (metric_fields epoch loss accuracy step)) extra).
    rewrite dict_get_update by done.
    specialize (Hfree k Hk). unfold has_key in Hfree.
    destruct (dict_get extra k); [done|].
    rewrite dict_get_update, Hv; [done|].
    unfold metric_fields.
    destruct (is_not_None accuracy), (is_not_None step);
      apply (bool_decide_unpack _); vm_compute; exact I. }
  exists epoch, loss, accuracy, step, extra.
  eexists. split; [done|]. split; [done|]. split; [exact Hrun|]. split; [done|].
  split; [by apply Hget|]. split; [by apply Hget|].
  split; [|split].
  - intros Hacc. apply Hget; [done|]. unfold metric_fields. by rewrite Hacc.
  - intros Hstep. apply Hget; [done|]. unfold metric_fields. rewrite Hstep.
    by destruct (is_not_None accuracy).
  - intros i a Ha.
    destruct (bind_positional_metric _ _ _ _ Hpos Ha) as (name & Hname & Hb0).
    apply Hkeep in Hb0.
    destruct i as [|[|[|[|i]]]]; simpl in Hname; try discriminate Hname;
      injection Hname as <-; simpl.
    + congruence.
    + congruence.
    + subst accuracy. by rewrite Hb0.
    + subst step. by rewrite Hb0.
Qed.

(** *** The whole stream *)

Lemma run_callbacks_registered epochs event trainer w :
  run_callbacks (registered epochs) event trainer w
  = (Return tt, print_all (step_events epochs (Fire event trainer)) w).
Proof.
  unfold registered, step_events. cbn [run_callbacks call_callback].
  unfold on_train_batch_end.
  destruct (String.eqb "on_train_epoch_end" event);
    destruct (String.eqb "on_train_batch_end" event);
    destruct (String.eqb "on_model_save" event);
    destruct (batch trainer mod 10 =? 0);
    repeat first
      [ erewrite bind_return by apply on_train_epoch_end_run
      | erewrite bind_return by apply progress_run
      | erewrite bind_return by apply on_model_save_run
      | erewrite bind_return by reflexivity ];
    reflexivity.
Qed.

Lemma engine_run_registered epochs steps w :
  callbacks w = registered epochs ->
  exists w',
    engine_run steps w = (Return tt, w')
    /\ stdout w' = stdout w ++ flat_map (step_events epochs) steps
    /\ fs w' = fs_after steps (fs w)
    /\ clock w' = clock_after steps (clock w)
    /\ callbacks w' = callbacks w
    /\ engine_calls w' = engine_calls w.
Proof.
  revert w. induction steps as [|s steps IH]; intros w Hcbs.
  - exists w. rewrite app_nil_r. by repeat split.
  - destruct s as [event trainer|p|p|t]; cbn [engine_run].
    + erewrite bind_return by reflexivity. rewrite Hcbs.
      erewrite bind_return by apply run_callbacks_registered.
      destruct (IH (print_all (step_events epochs (Fire event trainer)) w))
        as (w' & Hrun & Hout & Hfs & Hclock & Hcb & Hcalls).
      { by rewrite callbacks_print_all. }
      exists w'. split; [done|].
      rewrite Hout, Hfs, Hclock, Hcb, Hcalls.
      rewrite stdout_print_all, fs_print_all, callbacks_print_all,
        engine_calls_print_all.
      cbn [flat_map]. rewrite <- app_assoc. repeat split; try done.
      f_equal. clear. generalize (step_events epochs (Fire event trainer)).
      intros evs. revert w. induction evs as [|ev evs IHevs]; intros w; [done|].
      simpl. by rewrite IHevs.
    + erewrite bind_return by reflexivity.
      destruct (IH (set_fs ({[p]} ∪ fs w) w)) as (w' & Hrun & Hout & Hfs & Hclock & Hcb & Hcalls);
        [done|].
      exists w'. split; [done|]. by rewrite Hout, Hfs, Hclock, Hcb, Hcalls.
    + erewrite bind_return by reflexivity.
      destruct (IH (set_fs (fs w ∖ {[p]}) w)) as (w' & Hrun & Hout & Hfs & Hclock & Hcb & Hcalls);
        [done|].
      exists w'. split; [done|]. by rewrite Hout, Hfs, Hclock, Hcb, Hcalls.
    + erewrite bind_return by reflexivity.
      destruct (IH (set_clock t w)) as (w' & Hrun & Hout & Hfs & Hclock & Hcb & Hcalls);
        [done|].
      exists w'. split; [done|]. by rewrite Hout, Hfs, Hclock, Hcb, Hcalls.
Qed.

Lemma load_model_exact E cfg w :
  load_model E cfg w
  = (match YOLO_outcome E (model_path cfg w) with
     | None => Return tt
     | Some e => Raise e
     end,
     record_call (Call_YOLO (model_path cfg w))
       (print_record (log_event "info" (load_message cfg w)) w)).
Proof.
  unfold load_model, path_exists, model_path, load_message, last_pt.
  destruct (resume cfg); cbn [andb];
    erewrite bind_return by reflexivity;
    [destruct (bool_decide _)|];
    cbv beta iota;
    (erewrite bind_return by apply log_run);
    unfold YOLO; (erewrite bind_return by reflexivity);
    by destruct (YOLO_outcome E _).
Qed.

Lemma finish_exact cfg start_time res w :
  finish cfg start_time res w
  = (Return tt, print_all (finish_events cfg start_time (clock w) (fs w) res) w).
Proof.
  unfold finish, time_time, path_exists, finish_events.
  erewrite bind_return by reflexivity.
  erewrite bind_return by apply log_run.
  erewrite bind_return by apply log_run.
  erewrite bind_return by reflexivity.
  cbn [fs print_record]. fold (best_pt cfg).
  destruct (bool_decide (best_pt cfg ∈ fs w)).
  - erewrite bind_return by apply checkpoint_run. by rewrite completed_run.
  - erewrite bind_return by reflexivity. by rewrite completed_run.
Qed.

Lemma clock_print_all evs w : clock (print_all evs w) = clock w.
Proof. revert w. induction evs as [|ev evs IH]; intros w; simpl; [done|]. by rewrite IH. Qed.

Lemma model_train_exact E args epochs w :
  callbacks w = registered epochs ->
  exists w',
    model_train E args w = (train_outcome E, w')
    /\ stdout w' = stdout w ++ flat_map (step_events epochs) (train_steps E)
    /\ fs w' = fs_after (train_steps E) (fs w)
    /\ clock w' = clock_after (train_steps E) (clock w)
    /\ callbacks w' = callbacks w
    /\ engine_calls w' = engine_calls w ++ [Call_train args].
Proof.
  intros Hcbs. unfold model_train.
  erewrite bind_return by reflexivity.
  destruct (engine_run_registered epochs (train_steps E)
              (record_call (Call_train args) w) Hcbs)
    as (w' & Hrun & Hout & Hfs & Hclock & Hcb & Hcalls).
  erewrite bind_return by apply Hrun.
  exists w'. by repeat split.
Qed.

Lemma print_all_fold evs w :
  fold_left (fun w ev => print_record ev w) evs w = print_all evs w.
Proof. reflexivity. Qed.

(** The body of the second [try], when the model constructor succeeds on
    a model without callbacks. *)
Lemma train_body_exact E cfg start_time w :
  callbacks w = [] ->
  YOLO_outcome E (model_path cfg w) = None ->
  exists w',
    train_body E cfg start_time w
    = (match train_outcome E with Return _ => Return tt | Raise e => Raise e end, w')
    /\ stdout w'
       = stdout w
         ++ [log_event "info" (load_message cfg w);
             log_event "info" "Starting training..."]
         ++ flat_map (step_events (epochs cfg)) (train_steps E)
         ++ match train_outcome E with
            | Return res =>
                finish_events cfg start_time (clock_after (train_steps E) (clock w))
                  (fs_after (train_steps E) (fs w)) res
            | Raise _ => []
            end
    /\ fs w' = fs_after (train_steps E) (fs w)
    /\ clock w' = clock_after (train_steps E) (clock w)
    /\ callbacks w' = registered (epochs cfg)
    /\ engine_calls w' = engine_calls w ++ calls_to_train cfg w.
Proof.
  intros Hcbs HY. unfold train_body.
  erewrite bind_return by (rewrite load_model_exact, HY; reflexivity).
  do 3 erewrite bind_return by apply add_callback_run.
  erewrite bind_return by apply log_run.
  match goal with |- context [bind (model_train E ?a) _ ?w1] =>
    destruct (model_train_exact E a (epochs cfg) w1)
      as (w2 & Htrain & Hout & Hfs & Hclock & Hcb & Hcalls)
  end.
  { cbn. by rewrite Hcbs. }
  cbn in Hout, Hfs, Hclock, Hcb, Hcalls. rewrite Hcbs in Hcb. cbn in Hcb.
  destruct (train_outcome E) as [res|e].
  - erewrite bind_return by apply Htrain.
    rewrite finish_exact. eexists. split; [reflexivity|].
    rewrite stdout_print_all, fs_print_all, clock_print_all, callbacks_print_all,
      engine_calls_print_all, Hout, Hfs, Hclock, Hcalls.
    rewrite <- !app_assoc. by repeat split.
  - erewrite bind_raise by apply Htrain.
    exists w2. split; [reflexivity|].
    rewrite Hout, Hcalls, app_nil_r, <- !app_assoc. by repeat split.
Qed.

Lemma load_message_print_all cfg evs w :
  load_message cfg (print_all evs w) = load_message cfg w.
Proof. unfold load_message. by rewrite fs_print_all. Qed.

(** The whole run, when the import and the model constructor succeed on a
    model without callbacks: the outcome, the stream, and what is left of
    the world. *)
Lemma run_stream E cfg w :
  import_outcome E = None ->
  callbacks w = [] ->
  YOLO_outcome E (model_path cfg w) = None ->
  let r := train_yolov8 E cfg w in
  let steps := train_steps E in
  fst r = run_outcome (train_outcome E)
  /\ stdout (snd r)
     = stdout w
       ++ announce_events cfg
       ++ [log_event "info" (load_message cfg w);
           log_event "info" "Starting training..."]
       ++ flat_map (step_events (epochs cfg)) steps
       ++ closing_events cfg (clock w) (clock_after steps (clock w))
            (fs_after steps (fs w)) (train_outcome E)
  /\ fs (snd r) = fs_after steps (fs w)
  /\ clock (snd r) = clock_after steps (clock w)
  /\ callbacks (snd r) = registered (epochs cfg)
  /\ engine_calls (snd r) = engine_calls w ++ calls_to_train cfg w.
Proof.
  intros Himp Hcbs HY. cbv zeta.
  rewrite (train_yolov8_import_ok _ _ _ Himp).
  destruct (train_body_exact E cfg (clock w) (print_all (announce_events cfg) w))
    as (w' & Hrun & Hout & Hfs & Hclock & Hcb & Hcalls).
  { by rewrite callbacks_print_all. }
  { by rewrite model_path_print_all. }
  rewrite stdout_print_all, load_message_print_all, clock_print_all,
    fs_print_all in Hout.
  rewrite fs_print_all in Hfs. rewrite clock_print_all in Hclock.
  unfold calls_to_train in Hcalls.
  rewrite engine_calls_print_all, model_path_print_all in Hcalls.
  fold (calls_to_train cfg w) in Hcalls.
  destruct (train_outcome E) as [res|e].
  - rewrite (try_except_return _ _ _ Hrun). cbn [fst snd run_outcome closing_events].
    rewrite Hout, <- ?app_assoc. by repeat split.
  - rewrite (try_except_raise _ _ _ _ Hrun).
    destruct e as [|code| |cls msg];
      cbn [fst snd run_outcome closing_events print_record stdout fs clock
           callbacks engine_calls str_exn];
      rewrite Hout, ?app_nil_r, <- ?app_assoc; by repeat split.
Qed.

Lemma step_events_ordinary epochs s : forallb ordinary (step_events epochs s) = true.
Proof.
  destruct s as [event trainer|p|p|t]; [|done..]. unfold step_events.
  by destruct (String.eqb "on_train_epoch_end" event),
    (String.eqb "on_train_batch_end" event),
    (String.eqb "on_model_save" event), (batch trainer mod 10 =? 0).
Qed.

Lemma flat_map_step_events_ordinary epochs steps :
  forallb ordinary (flat_map (step_events epochs) steps) = true.
Proof.
  induction steps as [|s steps IH]; [done|]. cbn [flat_map].
  by rewrite forallb_app, step_events_ordinary, IH.
Qed.

Lemma count_app {A} (P : A -> bool) (l1 l2 : list A) :
  length (List.filter P (l1 ++ l2))
  = (length (List.filter P l1) + length (List.filter P l2))%nat.
Proof. by rewrite List.filter_app, length_app. Qed.

(** The hooks print one metric record for each firing of the epoch-end
    event, and one progress record for each such firing and for each
    sampled batch. *)
Lemma count_step_events epochs steps :
  length (List.filter (has_type "metric") (flat_map (step_events epochs) steps))
  = length (List.filter (is_fire "on_train_epoch_end") steps)
  /\ length (List.filter (has_type "progress") (flat_map (step_events epochs) steps))
     = (length (List.filter (is_fire "on_train_epoch_end") steps)
        + length (List.filter is_sampled_batch steps))%nat
  /\ length (List.filter (has_type "checkpoint") (flat_map (step_events epochs) steps))
     = length (List.filter (is_fire "on_model_save") steps).
Proof.
  induction steps as [|s steps (IHm & IHp & IHc)]; [done|].
  cbn [flat_map]. rewrite !count_app, IHm, IHp, IHc.
  destruct s as [event trainer|p|p|t]; [|done..].
  cbn [List.filter is_fire is_sampled_batch step_events].
  destruct (String.eqb_spec "on_train_epoch_end" event) as [He|He];
    destruct (String.eqb_spec "on_train_batch_end" event) as [Hb|Hb];
    destruct (String.eqb_spec "on_model_save" event) as [Hs|Hs];
    try (exfalso; congruence);
    destruct (batch trainer mod 10 =? 0); cbn; repeat split; lia.
Qed.

Lemma count_finish_events cfg start_time now f res :
  List.filter (has_type "metric") (finish_events cfg start_time now f res) = []
  /\ List.filter (has_type "progress") (finish_events cfg start_time now f res) = []
  /\ length (List.filter (has_type "checkpoint") (finish_events cfg start_time now f res))
     = (if bool_decide (best_pt cfg ∈ f) then 1 else 0)%nat.
Proof. unfold finish_events. by destruct (bool_decide _). Qed.

Lemma count_closing_events cfg start_time now f o :
  List.filter (has_type "metric") (closing_events cfg start_time now f o) = []
  /\ List.filter (has_type "progress") (closing_events cfg start_time now f o) = []
  /\ length (List.filter (has_type "checkpoint") (closing_events cfg start_time now f o))
     = match o with
       | Return _ => if bool_decide (best_pt cfg ∈ f) then 1%nat else 0%nat
       | Raise _ => 0%nat
       end.
Proof.
  destruct o as [res|[| | |cls msg]]; try done. apply count_finish_events.
Qed.

(** *** Further properties of a run *)

(** X1. In a run whose import and model constructor succeed on a model
    without callbacks, the stream is: the four start-up logs, the load
    log, the log "Starting training...", then for each step of the engine,
    in order, what the hooks print for it (three records for an epoch end,
    one progress for a sampled batch, one checkpoint for a save, nothing
    for any other event), then the closing records; and the run ends as
    the training call ends: return, [SystemExit(0)] on interrupt,
    [SystemExit(1)] on an [Exception], the exception itself otherwise. *)
Theorem stream_follows_engine_steps E cfg w :
  import_outcome E = None ->
  callbacks w = [] ->
  YOLO_outcome E (model_path cfg w) = None ->
  let r := train_yolov8 E cfg w in
  let steps := train_steps E in
  fst r = run_outcome (train_outcome E)
  /\ stdout (snd r)
     = stdout w
       ++ announce_events cfg
       ++ [log_event "info" (load_message cfg w);
           log_event "info" "Starting training..."]
       ++ flat_map (step_events (epochs cfg)) steps
       ++ closing_events cfg (clock w) (clock_after steps (clock w))
            (fs_after steps (fs w)) (train_outcome E).
Proof.
  intros Himp Hcbs HY. cbv zeta.
  destruct (run_stream E cfg w Himp Hcbs HY) as (Hfst & Hout & _). by split.
Qed.

(** X2. Such a run makes exactly five calls on the engine, in this order:
    the model constructor, [add_callback] for [on_train_epoch_end],
    [on_train_batch_end] and [on_model_save], and [train] with the
    configuration passed through, [name="train"], [exist_ok=True],
    [verbose=False], [plots=True], [patience=0]; it leaves each of the
    three hooks registered once. *)
Theorem engine_calls_of_a_training_run E cfg w :
  import_outcome E = None ->
  callbacks w = [] ->
  YOLO_outcome E (model_path cfg w) = None ->
  let r := train_yolov8 E cfg w in
  engine_calls (snd r)
  = engine_calls w
    ++ [Call_YOLO (model_path cfg w);
        Call_add_callback "on_train_epoch_end";
        Call_add_callback "on_train_batch_end";
        Call_add_callback "on_model_save";
        Call_train
          (mkTrainArgs (dataset cfg) (epochs cfg) (batch_size cfg) (image_size cfg)
             (learning_rate cfg) (device cfg) (output_dir cfg) "train"
             true false true 0)]
  /\ callbacks (snd r)
     = [("on_train_epoch_end", Closure_on_train_epoch_end (epochs cfg));
        ("on_train_batch_end", Closure_on_train_batch_end (epochs cfg));
        ("on_model_save", Closure_on_model_save)].
Proof.
  intros Himp Hcbs HY. cbv zeta.
  destruct (run_stream E cfg w Himp Hcbs HY) as (_ & _ & _ & _ & Hcb & Hcalls).
  by split.
Qed.

(** X3. In such a run the number of metric records equals the number of
    times the engine fires the epoch-end event, and the number of progress
    records equals that number plus the number of batch-end firings on a
    batch index that 10 divides. *)
Theorem one_metric_per_epoch E cfg w new :
  import_outcome E = None ->
  callbacks w = [] ->
  YOLO_outcome E (model_path cfg w) = None ->
  stdout (snd (train_yolov8 E cfg w)) = stdout w ++ new ->
  length (List.filter (has_type "metric") new)
  = length (List.filter (is_fire "on_train_epoch_end") (train_steps E))
  /\ length (List.filter (has_type "progress") new)
     = (length (List.filter (is_fire "on_train_epoch_end") (train_steps E))
        + length (List.filter is_sampled_batch (train_steps E)))%nat.
Proof.
  intros Himp Hcbs HY Hnew.
  destruct (run_stream E cfg w Himp Hcbs HY) as (_ & Hout & _).
  cbv zeta in Hout. rewrite Hout in Hnew. apply app_inv_head in Hnew as <-.
  destruct (count_step_events (epochs cfg) (train_steps E)) as (Hm & Hp & _).
  destruct (count_closing_events cfg (clock w)
              (clock_after (train_steps E) (clock w))
              (fs_after (train_steps E) (fs w)) (train_outcome E)) as (Hcm & Hcp & _).
  rewrite !count_app, Hm, Hp, Hcm, Hcp. cbn. split; lia.
Qed.

(** X4. Checkpoint records are not de-duplicated: in such a run their
    number is the number of times the engine fires the model-save event,
    plus one when the training call returns and
    [<output_dir>/train/weights/best.pt] exists at that moment. *)
Theorem checkpoints_are_not_deduplicated E cfg w new :
  import_outcome E = None ->
  callbacks w = [] ->
  YOLO_outcome E (model_path cfg w) = None ->
  stdout (snd (train_yolov8 E cfg w)) = stdout w ++ new ->
  length (List.filter (has_type "checkpoint") new)
  = (length (List.filter (is_fire "on_model_save") (train_steps E))
     + match train_outcome E with
       | Return _ =>
           if bool_decide (best_pt cfg ∈ fs (snd (train_yolov8 E cfg w))) then 1 else 0
       | Raise _ => 0
       end)%nat.
Proof.
  intros Himp Hcbs HY Hnew.
  destruct (run_stream E cfg w Himp Hcbs HY) as (_ & Hout & Hfs & _).
  cbv zeta in Hout, Hfs. rewrite Hout in Hnew. apply app_inv_head in Hnew as <-.
  destruct (count_step_events (epochs cfg) (train_steps E)) as (_ & _ & Hc).
  destruct (count_closing_events cfg (clock w)
              (clock_after (train_steps E) (clock w))
              (fs_after (train_steps E) (fs w)) (train_outcome E)) as (_ & _ & Hcc).
  rewrite !count_app, Hc, Hcc, Hfs. cbn. lia.
Qed.

(** X5. When the training call returns, the run returns and its last
    record is [completed] with [finalLoss] the sum of the three loss
    entries of the results, [finalAccuracy] their mAP50 entry, and
    [duration] the clock at the end minus the clock at the start; a
    result without [results_dict] gives [finalLoss] and [finalAccuracy]
    zero. *)
Theorem completed_record_contents E cfg w res :
  import_outcome E = None ->
  callbacks w = [] ->
  YOLO_outcome E (model_path cfg w) = None ->
  train_outcome E = Return res ->
  let r := train_yolov8 E cfg w in
  let d := match res with Some d => d | None => [] end in
  fst r = Return tt
  /\ last (stdout (snd r))
     = Some (completed_event
               (get_float d "train/box_loss" + get_float d "train/cls_loss"
                + get_float d "train/dfl_loss")%float
               (get_float d "metrics/mAP50(B)")
               (clock (snd r) - clock w)%float)
  /\ (res = None ->
      last (stdout (snd r))
      = Some (completed_event 0%float 0%float (clock (snd r) - clock w)%float)).
Proof.
  intros Himp Hcbs HY HT. cbv zeta.
  destruct (run_stream E cfg w Himp Hcbs HY) as (Hfst & Hout & _ & Hclock & _).
  cbv zeta in Hfst, Hout, Hclock. rewrite HT in Hfst, Hout.
  cbn [run_outcome closing_events] in Hfst, Hout. unfold finish_events in Hout.
  rewrite Hout, Hclock. rewrite !app_assoc, last_snoc.
  split; [done|]. split; [done|]. by intros ->.
Qed.

Lemma train_body_load_raises E cfg start_time w e :
  YOLO_outcome E (model_path cfg w) = Some e ->
  train_body E cfg start_time w
  = (Raise e,
     record_call (Call_YOLO (model_path cfg w))
       (print_record (log_event "info" (load_message cfg w)) w)).
Proof.
  intros HY. unfold train_body.
  by erewrite bind_raise by (rewrite load_model_exact, HY; reflexivity).
Qed.

(** X6. When the model constructor raises, the run registers no callback
    and never calls [train]: its only engine call is the constructor, the
    filesystem is untouched, and the stream is the four start-up logs, the
    load log and the closing record of the exception (a warning log and
    [SystemExit(0)] for an interrupt, an [error] and [SystemExit(1)] for
    an [Exception], nothing for any other exception, which propagates). *)
Theorem constructor_failure_stops_before_training E cfg w e :
  import_outcome E = None ->
  YOLO_outcome E (model_path cfg w) = Some e ->
  let r := train_yolov8 E cfg w in
  fst r = match e with
          | KeyboardInterrupt => Raise (SystemExit 0)
          | PyException _ _ => Raise (SystemExit 1)
          | _ => Raise e
          end
  /\ stdout (snd r)
     = stdout w ++ announce_events cfg
       ++ [log_event "info" (load_message cfg w)]
       ++ match e with
          | KeyboardInterrupt => [log_event "warning" "Training interrupted by user"]
          | PyException _ msg => [error_event ("Training failed: " +:+ msg)]
          | _ => []
          end
  /\ engine_calls (snd r) = engine_calls w ++ [Call_YOLO (model_path cfg w)]
  /\ callbacks (snd r) = callbacks w
  /\ fs (snd r) = fs w.
Proof.
  intros Himp HY. cbv zeta.
  rewrite (train_yolov8_import_ok _ _ _ Himp).
  rewrite <- (model_path_print_all cfg (announce_events cfg) w) in HY.
  rewrite (try_except_raise _ _ _ _ (train_body_load_raises E cfg _ _ e HY)).
  rewrite load_message_print_all, model_path_print_all.
  destruct e as [|code| |cls msg];
    cbn [fst snd print_record record_call stdout engine_calls callbacks fs str_exn];
    rewrite stdout_print_all, engine_calls_print_all, callbacks_print_all,
      fs_print_all, ?app_nil_r, <- ?app_assoc; by repeat split.
Qed.

(** X7. When the training call raises an exception that is neither an
    interrupt nor an [Exception] ([SystemExit], [GeneratorExit]), the run
    raises that same exception and prints nothing for it: every record of
    the run is ordinary, so the stream has no terminal record and no
    warning. *)
Theorem base_exception_passes_through E cfg w e :
  import_outcome E = None ->
  YOLO_outcome E (model_path cfg w) = None ->
  train_outcome E = Raise e ->
  isinstance_KeyboardInterrupt e = false ->
  isinstance_Exception e = false ->
  let r := train_yolov8 E cfg w in
  fst r = Raise e
  /\ exists new,
       stdout (snd r) = stdout w ++ new
       /\ forallb ordinary new = true
       /\ List.filter is_terminal new = []
       /\ List.filter is_warning_log new = [].
Proof.
  intros Himp HY HT Hki Hexc. cbv zeta.
  rewrite (train_yolov8_import_ok _ _ _ Himp).
  destruct (train_body_cases E cfg (clock w) (print_all (announce_events cfg) w))
    as (evs & w' & Hord & Hcases).
  rewrite model_path_print_all, stdout_print_all in Hcases.
  destruct Hcases as [(e' & HY' & _)
                     |[(e' & _ & HT' & Hrun & Hout & _)
                      |(res & c & _ & HT' & _)]]; [congruence| |congruence].
  rewrite HT in HT'. injection HT' as <-.
  rewrite (try_except_raise _ _ _ _ Hrun).
  assert (Hall : forallb ordinary (announce_events cfg ++ evs) = true).
  { by rewrite forallb_app, Hord. }
  destruct e as [|code| |cls msg]; try discriminate; cbn [fst snd];
    (split; [done|]); exists (announce_events cfg ++ evs);
    rewrite Hout, <- app_assoc;
    (split; [done|]); (split; [done|]);
    by rewrite (ordinary_no_terminal _ Hall), (ordinary_no_warning _ Hall).
Qed.

(** X8. When the import block raises anything but an [ImportError], the
    exception leaves [train_yolov8] uncaught: nothing is printed, no call
    is made on the engine, the world is as it was. *)
Theorem import_failure_is_not_reported E cfg w e :
  import_outcome E = Some e ->
  isinstance_ImportError e = false ->
  train_yolov8 E cfg w = (Raise e, w).
Proof.
  intros Himp Hcls. by rewrite (train_yolov8_import_raises _ _ _ _ Himp), Hcls.
Qed.

Lemma progress_epoch_step_events epochs s :
  omap progress_epoch (step_events epochs s)
  = match progress_step s with
    | Some trainer => [(epoch trainer + 1, epochs)]
    | None => []
    end.
Proof.
  destruct s as [event trainer|p|p|t]; [|done..].
  cbn [step_events progress_step is_sampled_batch].
  destruct (String.eqb_spec "on_train_epoch_end" event) as [He|He];
    destruct (String.eqb_spec "on_train_batch_end" event) as [Hb|Hb];
    destruct (String.eqb_spec "on_model_save" event) as [Hs|Hs];
    try (exfalso; congruence);
    by destruct (batch trainer mod 10 =? 0).
Qed.

Lemma progress_epoch_closing cfg start_time now f o :
  omap progress_epoch (closing_events cfg start_time now f o) = [].
Proof.
  destruct o as [res|[| | |cls msg]]; try done.
  cbn [closing_events]. unfold finish_events. by destruct (bool_decide _).
Qed.

(** X10. In a run whose import and model constructor succeed on a model
    without callbacks, the progress records carry, in stream order, the
    engine's zero-based epoch index plus one for each epoch end and each
    sampled batch, always with [totalEpochs] the configured epoch count;
    so when the engine's index stays in [0, epochs) every progress record
    has [1 <= epoch <= totalEpochs]. *)
Theorem progress_epochs_follow_the_engine E cfg w new :
  import_outcome E = None ->
  callbacks w = [] ->
  YOLO_outcome E (model_path cfg w) = None ->
  stdout (snd (train_yolov8 E cfg w)) = stdout w ++ new ->
  omap progress_epoch new
  = map (fun trainer => (epoch trainer + 1, epochs cfg))
      (omap progress_step (train_steps E))
  /\ (Forall (fun trainer => 0 <= epoch trainer < epochs cfg)
        (omap progress_step (train_steps E)) ->
      Forall (fun p => 1 <= fst p <= snd p) (omap progress_epoch new)).
Proof.
  intros Himp Hcbs HY Hnew.
  destruct (run_stream E cfg w Himp Hcbs HY) as (_ & Hout & _).
  cbv zeta in Hout. rewrite Hout in Hnew. apply app_inv_head in Hnew as <-.
  clear Hout.
  assert (Heq : omap progress_epoch
                  (announce_events cfg
                   ++ [log_event "info" (load_message cfg w);
                       log_event "info" "Starting training..."]
                   ++ flat_map (step_events (epochs cfg)) (train_steps E)
                   ++ closing_events cfg (clock w)
                        (clock_after (train_steps E) (clock w))
                        (fs_after (train_steps E) (fs w)) (train_outcome E))
                = map (fun trainer => (epoch trainer + 1, epochs cfg))
                    (omap progress_step (train_steps E))).
  { rewrite !omap_app, progress_epoch_closing, app_nil_r.
    change (omap progress_epoch (announce_events cfg)) with (@nil (Z * Z)).
    change (omap progress_epoch
              [log_event "info" (load_message cfg w);
               log_event "info" "Starting training..."]) with (@nil (Z * Z)).
    cbn [app]. induction (train_steps E) as [|s steps IH]; [done|].
    cbn [flat_map]. rewrite omap_app, progress_epoch_step_events, IH.
    cbn [omap list_omap]. by destruct (progress_step s). }
  split; [done|]. rewrite Heq. intros Hbound.
  apply Forall_fmap. eapply Forall_impl; [exact Hbound|].
  intros trainer Ht. cbn in *. lia.
Qed.

(** *** Further properties of the emitters *)

Lemma has_key_dict_set (d : dict) k v k' :
  has_key (dict_set d k v) k' = has_key d k' || String.eqb k k'.
Proof.
  unfold has_key. rewrite dict_get_set.
  destruct (String.eqb k k'), (dict_get d k'); done.
Qed.

Lemma keys_dict_set (d : dict) k v :
  keys (dict_set d k v) = if has_key d k then keys d else keys d ++ [k].
Proof.
  unfold has_key. induction d as [|[k' v'] d IH]; [done|]. cbn [dict_set dict_get].
  destruct (String.eqb k' k); [done|].
  change (keys ((k', v') :: dict_set d k v)) with (k' :: keys (dict_set d k v)).
  rewrite IH. by destruct (dict_get d k).
Qed.

(** The keys after [d.update(e)]: those of [d], then the new ones in the
    order of [e]. *)
Lemma keys_dict_update (d e : dict) :
  NoDup (keys e) ->
  keys (dict_update d e)
  = keys d ++ List.filter (fun k => negb (has_key d k)) (keys e).
Proof.
  revert d. induction e as [|[k v] e IH]; intros d Hnd.
  - by rewrite app_nil_r.
  - apply NoDup_cons in Hnd as [Hnin Hnd].
    unfold dict_update in *. cbn [fold_left fst snd keys map List.filter].
    rewrite IH by done. rewrite keys_dict_set.
    assert (Hext : List.filter (fun k0 => negb (has_key (dict_set d k v) k0)) (keys e)
                   = List.filter (fun k0 => negb (has_key d k0)) (keys e)).
    { apply List.filter_ext_in. intros k0 Hin. rewrite has_key_dict_set.
      destruct (String.eqb_spec k k0) as [->|Hne]; [|by rewrite orb_false_r].
      exfalso. apply Hnin. by apply list_elem_of_In. }
    fold (keys e). rewrite Hext.
    destruct (has_key d k); cbn [negb]; [done|]. by rewrite <- app_assoc.
Qed.

Lemma bind_keywords_emit_ok kws bound extra :
  has_key bound "event_type" = true ->
  NoDup (keys kws) ->
  has_key kws "event_type" = false ->
  (forall k, k ∈ keys kws -> has_key extra k = false) ->
  bind_keywords "emit" [("event_type", None)] kws bound extra
  = Return (bound, extra ++ kws).
Proof.
  intros Hb. revert extra.
  induction kws as [|[k v] kws IH]; intros extra Hnd Hne Hfresh; cbn [bind_keywords].
  - by rewrite app_nil_r.
  - apply NoDup_cons in Hnd as [Hnin Hnd].
    unfold has_key in Hne. cbn [dict_get] in Hne.
    unfold is_param. cbn [existsb fst].
    destruct (String.eqb_spec k "event_type") as [->|Hk]; [done|].
    destruct (String.eqb_spec "event_type" k) as [<-|_]; [done|]. cbn [orb].
    rewrite (Hfresh k) by apply list_elem_of_here.
    rewrite IH; [by rewrite <- app_assoc | done | done |].
    intros k0 Hin. unfold has_key. rewrite dict_get_app.
    specialize (Hfresh k0 (list_elem_of_further _ _ _ Hin)). unfold has_key in Hfresh.
    destruct (dict_get extra k0); [done|]. cbn [dict_get].
    destruct (String.eqb_spec k k0) as [->|]; done.
Qed.

Lemma emit_ok ty kwargs w :
  NoDup (keys kwargs) ->
  has_key kwargs "event_type" = false ->
  emit (mkCall [ty] kwargs) w
  = (Return tt, print_record (dict_update [("type", ty)] kwargs) w).
Proof.
  intros Hnd Hne. unfold emit, bind, lift, bind_args. cbn [pos kw bind_positional].
  by rewrite bind_keywords_emit_ok.
Qed.

(** X11. [emit(event_type, **kwargs)] with distinct keyword names, none
    of them [event_type], prints exactly one record and changes nothing
    else; the record's keys are [type] followed by the keyword names in
    call order (a keyword named [type] takes the first place instead),
    every keyword argument can be read back from the record, and [type]
    reads as [event_type] unless a keyword is named [type]. *)
Theorem emit_prints_its_keyword_arguments ty kwargs w :
  NoDup (keys kwargs) ->
  has_key kwargs "event_type" = false ->
  exists ev,
    emit (mkCall [ty] kwargs) w = (Return tt, print_record ev w)
    /\ keys ev
       = "type" :: List.filter (fun k => negb (String.eqb "type" k)) (keys kwargs)
    /\ (forall k v, dict_get kwargs k = Some v -> dict_get ev k = Some v)
    /\ (has_key kwargs "type" = false -> dict_get ev "type" = Some ty).
Proof.
  intros Hnd Hne. exists (dict_update [("type", ty)] kwargs).
  split; [by apply emit_ok|]. split; [|split].
  - rewrite keys_dict_update by done. cbn [keys map fst app]. f_equal.
    apply List.filter_ext. intros k. unfold has_key. cbn [dict_get].
    by destruct (String.eqb "type" k).
  - intros k v Hk. rewrite dict_get_update by done. by rewrite Hk.
  - intros Hty. rewrite dict_get_update by done. unfold has_key in Hty.
    by destruct (dict_get kwargs "type").
Qed.

Lemma bind_keywords_event_type_raises kws bound extra :
  has_key bound "event_type" = true ->
  has_key kws "event_type" = true ->
  exists msg,
    bind_keywords "emit" [("event_type", None)] kws bound extra
    = Raise (PyException TypeError msg).
Proof.
  intros Hb. revert extra.
  induction kws as [|[k v] kws IH]; intros extra Hk; [done|]. cbn [bind_keywords].
  unfold is_param. cbn [existsb fst].
  destruct (String.eqb_spec "event_type" k) as [<-|Hne]; cbn [orb].
  - rewrite Hb. by eexists.
  - destruct (has_key extra k); [by eexists|].
    apply IH. unfold has_key in *. cbn [dict_get] in Hk.
    destruct (String.eqb_spec k "event_type") as [->|]; done.
Qed.

Lemma emit_event_type_raises ty kwargs w :
  has_key kwargs "event_type" = true ->
  exists msg, emit (mkCall [ty] kwargs) w = (Raise (PyException TypeError msg), w).
Proof.
  intros Hk. unfold emit, bind, lift, bind_args. cbn [pos kw bind_positional].
  destruct (bind_keywords_event_type_raises kwargs [("event_type", ty)] [])
    as [msg Hmsg]; [done|done|].
  rewrite Hmsg. by exists msg.
Qed.

(** Argument binding fails with [TypeError] only. *)
Lemma bind_args_raises_TypeError fname params c e :
  bind_args fname params c = Raise e -> exists msg, e = PyException TypeError msg.
Proof.
  unfold bind_args.
  destruct (bind_positional fname params (pos c)) as [b0|e0] eqn:Hpos.
  - destruct (bind_keywords fname params (kw c) b0 []) as [[bound extra]|e1] eqn:Hkw.
    + destruct (fill_defaults fname params bound) as [vs|e2] eqn:Hfill; [done|].
      intros [= <-]. clear Hpos Hkw.
      induction params as [|[p dflt] params IH]; [done|]. cbn [fill_defaults] in Hfill.
      destruct (dict_get bound p), dflt;
        try (destruct (fill_defaults fname params bound); [done|];
             injection Hfill as ->; by apply IH).
      injection Hfill as <-. by eexists.
    + intros [= <-]. clear Hpos. revert Hkw. generalize (@nil (string * pyval)).
      revert b0. induction (kw c) as [|[k v] kws IH]; intros b0 x Hkw; [done|].
      cbn [bind_keywords] in Hkw.
      destruct (is_param params k).
      * destruct (has_key b0 k); [injection Hkw as <-; by eexists | by eapply IH].
      * destruct (has_key x k); [injection Hkw as <-; by eexists | by eapply IH].
  - intros [= <-]. revert params Hpos.
    induction (pos c) as [|a args IH]; intros params Hpos; [by destruct params|].
    destruct params as [|[p dflt] params]; cbn [bind_positional] in Hpos.
    + injection Hpos as <-. by eexists.
    + destruct (bind_positional fname params args) eqn:Hrec; [done|].
      injection Hpos as ->. by eapply IH.
Qed.

(** A keyword that names no parameter reaches the catch-all. *)
Lemma bind_keywords_extra fname params kws bound extra bound' extra' k :
  bind_keywords fname params kws bound extra = Return (bound', extra') ->
  is_param params k = false ->
  dict_get extra' k
  = match dict_get extra k with Some v => Some v | None => dict_get kws k end.
Proof.
  intros Hrun Hk. revert bound extra Hrun.
  induction kws as [|[k1 v1] kws IH]; intros bound extra Hrun; cbn [bind_keywords] in Hrun.
  - injection Hrun as <- <-. by destruct (dict_get extra k).
  - cbn [dict_get]. destruct (is_param params k1) eqn:Hk1.
    + destruct (has_key bound k1); [done|]. rewrite (IH _ _ Hrun).
      destruct (String.eqb_spec k1 k) as [->|]; [congruence | done].
    + destruct (has_key extra k1) eqn:Hx; [done|]. rewrite (IH _ _ Hrun).
      rewrite dict_get_app. cbn [dict_get].
      unfold has_key in Hx.
      destruct (String.eqb_spec k1 k) as [->|].
      * by destruct (dict_get extra k).
      * by destruct (dict_get extra k).
Qed.

(** What a returning binding of [metric] gives. *)
Lemma bind_args_metric_inv c vs extra :
  bind_args "metric" metric_params c = Return (vs, extra) ->
  exists epoch loss accuracy step,
    vs = [epoch; loss; accuracy; step]
    /\ NoDup (keys extra)
    /\ (forall k, k ∈ keys extra -> is_param metric_params k = false)
    /\ (forall k, is_param metric_params k = false ->
                  dict_get extra k = dict_get (kw c) k).
Proof.
  unfold bind_args. intros Hb.
  destruct (bind_positional _ _ _) as [b0|] eqn:Hpos; [|done].
  destruct (bind_keywords _ _ _ _ _) as [[bound extra']|] eqn:Hkw; [|done].
  destruct (fill_defaults _ _ _) as [vs'|] eqn:Hfill; [|done].
  injection Hb as -> ->.
  apply fill_defaults_metric in Hfill as (epoch & loss & _ & _ & ->).
  destruct (bind_keywords_inv _ _ _ _ _ _ _ Hkw) as (Hnd & Hnp & _);
    [apply NoDup_nil_2 | by intros k Hk; apply elem_of_nil in Hk |].
  do 4 eexists. split; [done|]. split; [done|]. split; [done|].
  intros k Hk. by rewrite (bind_keywords_extra _ _ _ _ _ _ _ k Hkw Hk).
Qed.

Lemma metric_runs_emit c epoch loss accuracy step extra w :
  bind_args "metric" metric_params c = Return ([epoch; loss; accuracy; step], extra) ->
  metric c w
  = emit (mkCall [PyStr "metric"] (metric_fields epoch loss accuracy step ++ extra)) w.
Proof.
  intros Hb. destruct (bind_args_metric_inv _ _ _ Hb) as (? & ? & ? & ? & _ & Hnd & Hnp & _).
  unfold metric, bind, lift. rewrite Hb.
  by rewrite (metric_data_fresh _ _ _ _ _ Hnd Hnp).
Qed.

Lemma metric_fields_params epoch loss accuracy step k :
  has_key (metric_fields epoch loss accuracy step) k = true ->
  is_param metric_params k = true.
Proof.
  unfold has_key, metric_fields, is_param, metric_params.
  destruct (is_not_None accuracy), (is_not_None step);
    cbn -[String.eqb];
    destruct (String.eqb "epoch" k), (String.eqb "loss" k),
      (String.eqb "accuracy" k), (String.eqb "step" k); done.
Qed.

Lemma NoDup_metric_record epoch loss accuracy step extra :
  NoDup (keys extra) ->
  (forall k, k ∈ keys extra -> is_param metric_params k = false) ->
  NoDup (keys (metric_fields epoch loss accuracy step ++ extra)).
Proof.
  intros Hnd Hnp. unfold keys. rewrite map_app. apply NoDup_app.
  split; [|split; [|done]].
  - unfold metric_fields.
    destruct (is_not_None accuracy), (is_not_None step);
      apply (bool_decide_unpack _); vm_compute; exact I.
  - intros k Hin Hin'. apply Hnp in Hin'.
    assert (Hk : has_key (metric_fields epoch loss accuracy step) k = true).
    { destruct (has_key (metric_fields epoch loss accuracy step) k) eqn:Hk; [done|].
      apply has_key_false in Hk. by destruct Hk. }
    apply metric_fields_params in Hk. congruence.
Qed.

(** Reading the record [metric] prints. *)
Lemma metric_record_get epoch loss accuracy step extra k :
  NoDup (keys extra) ->
  (forall k, k ∈ keys extra -> is_param metric_params k = false) ->
  dict_get (dict_update [("type", PyStr "metric")]
              (metric_fields epoch loss accuracy step ++ extra)) k
  = match dict_get (metric_fields epoch loss accuracy step) k with
    | Some v => Some v
    | None =>
        match dict_get extra k with
        | Some v => Some v
        | None => dict_get [("type", PyStr "metric")] k
        end
    end.
Proof.
  intros Hnd Hnp.
  rewrite dict_get_update by by apply NoDup_metric_record.
  rewrite dict_get_app.
  by destruct (dict_get (metric_fields epoch loss accuracy step) k),
    (dict_get extra k).
Qed.

(** X12. A metric call with a keyword named [event_type] always raises
    [TypeError] and prints nothing: the name either fails the binding of
    [metric] itself or reaches [emit] through [**data], where it collides
    with [emit]'s own parameter. *)
Theorem metric_rejects_event_type_keyword c w :
  has_key (kw c) "event_type" = true ->
  exists msg, metric c w = (Raise (PyException TypeError msg), w).
Proof.
  intros Hk.
  destruct (bind_args "metric" metric_params c) as [[vs extra]|e] eqn:Hb.
  - destruct (bind_args_metric_inv _ _ _ Hb)
      as (epoch & loss & accuracy & step & -> & Hnd & Hnp & Hextra).
    rewrite (metric_runs_emit _ _ _ _ _ _ _ Hb).
    apply emit_event_type_raises.
    unfold has_key in *. rewrite dict_get_app.
    destruct (dict_get (metric_fields epoch loss accuracy step) "event_type"); [done|].
    by rewrite Hextra.
  - destruct (bind_args_raises_TypeError _ _ _ _ Hb) as [msg ->].
    exists msg. unfold metric, bind, lift. by rewrite Hb.
Qed.

(** X13. A metric call that returns and has a keyword named [type]
    prints a record whose [type] is that keyword's value, not
    ["metric"]: the extra field replaces the discriminator. *)
Theorem metric_type_keyword_replaces_discriminator c w w' v :
  metric c w = (Return tt, w') ->
  dict_get (kw c) "type" = Some v ->
  exists ev,
    w' = print_record ev w
    /\ event_type ev = Some v
    /\ (v <> PyStr "metric" -> has_type "metric" ev = false).
Proof.
  intros Hrun Hk.
  destruct (bind_args "metric" metric_params c) as [[vs extra]|e] eqn:Hb;
    [|by unfold metric, bind, lift in Hrun; rewrite Hb in Hrun].
  destruct (bind_args_metric_inv _ _ _ Hb)
    as (epoch & loss & accuracy & step & -> & Hnd & Hnp & Hextra).
  rewrite (metric_runs_emit _ _ _ _ _ _ _ Hb) in Hrun. apply emit_inv in Hrun.
  eexists. split; [exact Hrun|].
  assert (Hty : event_type
                  (dict_update [("type", PyStr "metric")]
                     (metric_fields epoch loss accuracy step ++ extra)) = Some v).
  { unfold event_type. rewrite metric_record_get by done.
    rewrite (Hextra "type") by done. rewrite Hk.
    unfold metric_fields. by destruct (is_not_None accuracy), (is_not_None step). }
  split; [done|]. intros Hv. unfold has_type. rewrite Hty.
  destruct v as [|b|z|x|s]; try done.
  destruct (String.eqb_spec s "metric") as [->|]; done.
Qed.

(** X14. [metric] leaves out the optional fields that are [None]: the
    printed record has the key [accuracy] exactly when the accuracy
    argument is not [None], and the key [step] exactly when the step
    argument is not [None]. *)
Theorem metric_omits_None_fields c w w' epoch loss accuracy step extra :
  metric c w = (Return tt, w') ->
  bind_args "metric" metric_params c = Return ([epoch; loss; accuracy; step], extra) ->
  exists ev,
    w' = print_record ev w
    /\ has_key ev "accuracy" = is_not_None accuracy
    /\ has_key ev "step" = is_not_None step.
Proof.
  intros Hrun Hb.
  destruct (bind_args_metric_inv _ _ _ Hb) as (? & ? & ? & ? & _ & Hnd & Hnp & _).
  rewrite (metric_runs_emit _ _ _ _ _ _ _ Hb) in Hrun. apply emit_inv in Hrun.
  eexists. split; [exact Hrun|].
  assert (Hin : forall k, is_param metric_params k = true -> dict_get extra k = None).
  { intros k Hk. apply dict_get_None. intros Hin. apply Hnp in Hin. congruence. }
  unfold has_key. rewrite !metric_record_get by done.
  rewrite !Hin by done. unfold metric_fields.
  by destruct (is_not_None accuracy), (is_not_None step).
Qed.

Lemma bind_keywords_bound fname params kws bound extra bound' extra' k :
  bind_keywords fname params kws bound extra = Return (bound', extra') ->
  has_key bound' k = true ->
  has_key bound k = true \/ has_key kws k = true.
Proof.
  revert bound extra.
  induction kws as [|[k1 v1] kws IH]; intros bound extra Hrun Hk; cbn [bind_keywords] in Hrun.
  - injection Hrun as <- <-. by left.
  - unfold has_key at 2. cbn [dict_get].
    destruct (is_param params k1).
    + destruct (has_key bound k1); [done|].
      destruct (IH _ _ Hrun Hk) as [Hb|Hb].
      * unfold has_key in Hb. rewrite dict_get_app in Hb. cbn [dict_get] in Hb.
        unfold has_key. destruct (dict_get bound k); [by left|]. right.
        by destruct (String.eqb k1 k).
      * right. destruct (String.eqb k1 k); [done|]. exact Hb.
    + destruct (has_key extra k1); [done|].
      destruct (IH _ _ Hrun Hk) as [Hb|Hb]; [by left|].
      right. destruct (String.eqb k1 k); [done|]. exact Hb.
Qed.

(** X15. [metric] requires [loss]: a call with fewer than two positional
    arguments and no keyword named [loss] raises [TypeError] and prints
    nothing. *)
Theorem metric_requires_loss c w :
  (length (pos c) < 2)%nat ->
  has_key (kw c) "loss" = false ->
  exists msg, metric c w = (Raise (PyException TypeError msg), w).
Proof.
  intros Hlen Hk.
  destruct (bind_args "metric" metric_params c) as [[vs extra]|e] eqn:Hb.
  - exfalso. unfold bind_args in Hb.
    destruct (bind_positional _ _ _) as [b0|] eqn:Hpos; [|done].
    destruct (bind_keywords _ _ _ _ _) as [[bound extra']|] eqn:Hkw; [|done].
    destruct (fill_defaults _ _ _) as [vs'|] eqn:Hfill; [|done].
    apply fill_defaults_metric in Hfill as (epoch & loss & _ & Hloss & _).
    assert (Hbound : has_key bound "loss" = true) by (unfold has_key; by rewrite Hloss).
    destruct (bind_keywords_bound _ _ _ _ _ _ _ _ Hkw Hbound) as [Hb0|Hkw']; [|congruence].
    destruct (pos c) as [|a0 [|a1 args]]; cbn in Hpos, Hlen; [| |lia];
      injection Hpos as <-; discriminate Hb0.
  - destruct (bind_args_raises_TypeError _ _ _ _ Hb) as [msg ->].
    exists msg. unfold metric, bind, lift. by rewrite Hb.
Qed.

(** X16. A metric the trainer does not report reads as zero: when
    [trainer.metrics] has none of the five keys the epoch-end hook looks
    up, the metric record it prints has [loss], [accuracy], [mAP50],
    [mAP50_95], [box_loss], [cls_loss] and [dfl_loss] all 0.0. *)
Theorem epoch_end_missing_metrics_read_as_zero epochs trainer w :
  (forall k, k ∈ ["train/box_loss"; "train/cls_loss"; "train/dfl_loss";
                  "metrics/mAP50(B)"; "metrics/mAP50-95(B)"] ->
             k ∉ map fst (metrics trainer)) ->
  exists p l,
    stdout (snd (on_train_epoch_end epochs trainer w))
    = stdout w
      ++ [[("type", PyStr "metric"); ("epoch", PyInt (epoch trainer + 1));
           ("loss", PyFloat 0); ("accuracy", PyFloat 0); ("mAP50", PyFloat 0);
           ("mAP50_95", PyFloat 0); ("box_loss", PyFloat 0);
           ("cls_loss", PyFloat 0); ("dfl_loss", PyFloat 0)];
          p; l].
Proof.
  intros Hmiss. rewrite on_train_epoch_end_run. cbn [snd].
  rewrite stdout_print_all. unfold epoch_metric_event.
  rewrite !get_float_missing by (apply Hmiss; set_solver).
  by do 2 eexists.
Qed.

End Controller.

(** ** Concrete runs *)

Definition run (E : Engine) (cfg : Config) (w : World) : Outcome unit * World :=
  train_yolov8 sample_format sample_str sample_join E cfg w.

Definition type_name (ev : dict) : string :=
  match event_type ev with Some (PyStr s) => s | _ => "" end.

(** One epoch of two sampled batches, a save, and a normal return. *)
Example sample_run_stream :
  fst (run sample_engine default_config world0) = Return tt
  /\ map type_name (stdout (snd (run sample_engine default_config world0)))
     = ["log"; "log"; "log"; "log"; "log"; "log"; "progress"; "metric";
        "progress"; "log"; "checkpoint"; "log"; "log"; "checkpoint"; "completed"].
Proof. split; vm_compute; reflexivity. Qed.

(** A run whose training call raises [SystemExit 3]: nobody interrupted
    it, it prints no terminal record and no warning, and it ends with
    status 3.  The same holds of a run whose import fails with an
    [OSError]: it prints nothing at all. *)
Lemma silent_exit_without_interrupt :
  let r := run exiting_engine default_config world0 in
  let r' := run broken_import_engine default_config world0 in
  import_outcome exiting_engine = None
  /\ fault exiting_engine default_config world0 = Some (SystemExit 3)
  /\ fst r = Raise (SystemExit 3)
  /\ List.filter is_terminal (stdout (snd r)) = []
  /\ List.filter is_warning_log (stdout (snd r)) = []
  /\ fst r' = Raise (PyException (OtherException "OSError") "libtorch.so: cannot open")
  /\ stdout (snd r') = []
  /\ ~ (length (List.filter is_terminal (stdout (snd r))) = 1%nat
        \/ fault exiting_engine default_config world0 = Some KeyboardInterrupt).
Proof.
  cbv zeta. repeat (split; [vm_compute; reflexivity|]).
  intros [H|H]; vm_compute in H; discriminate.
Qed.

Lemma epoch_end_witness :
  NoDup (map fst (metrics (sample_trainer 0 39)))
  /\ reads (metrics (sample_trainer 0 39)) "train/box_loss" 1.5%float
  /\ reads (metrics (sample_trainer 0 39)) "train/cls_loss" 2.25%float
  /\ reads (metrics (sample_trainer 0 39)) "train/dfl_loss" 0.5%float
  /\ fst (on_train_epoch_end sample_format 3 (sample_trainer 0 39) world0) = Return tt
  /\ exists m p l,
       stdout (snd (on_train_epoch_end sample_format 3 (sample_trainer 0 39) world0))
       = stdout world0 ++ [m; p; l]
       /\ has_type "metric" m = true
       /\ has_type "progress" p = true
       /\ has_type "log" l = true
       /\ dict_get m "loss" = Some (PyFloat 4.25%float)
       /\ dict_get m "box_loss" = Some (PyFloat 1.5%float)
       /\ dict_get m "cls_loss" = Some (PyFloat 2.25%float)
       /\ dict_get m "dfl_loss" = Some (PyFloat 0.5%float).
Proof.
  assert (Hnd : NoDup (map fst (metrics (sample_trainer 0 39)))).
  { apply (bool_decide_unpack _); vm_compute; exact I. }
  assert (Hbox : reads (metrics (sample_trainer 0 39)) "train/box_loss" 1.5%float).
  { left. apply list_elem_of_here. }
  assert (Hcls : reads (metrics (sample_trainer 0 39)) "train/cls_loss" 2.25%float).
  { left. apply list_elem_of_further, list_elem_of_here. }
  assert (Hdfl : reads (metrics (sample_trainer 0 39)) "train/dfl_loss" 0.5%float).
  { left. do 2 apply list_elem_of_further. apply list_elem_of_here. }
  split; [exact Hnd|]. split; [exact Hbox|]. split; [exact Hcls|].
  split; [exact Hdfl|].
  exact (epoch_end_emits_metric_progress_log sample_format 3 (sample_trainer 0 39)
           world0 1.5%float 2.25%float 0.5%float Hnd Hbox Hcls Hdfl).
Defined.

Lemma missing_dependency_witness :
  import_outcome engine_without_ultralytics
  = Some (PyException ModuleNotFoundError "No module named 'ultralytics'")
  /\ fst (run engine_without_ultralytics default_config world0) = Raise (SystemExit 1)
  /\ stdout (snd (run engine_without_ultralytics default_config world0))
     = stdout world0
       ++ [error_event "Ultralytics not installed. Run: pip install ultralytics"]
  /\ engine_calls (snd (run engine_without_ultralytics default_config world0))
     = engine_calls world0
  /\ callbacks (snd (run engine_without_ultralytics default_config world0))
     = callbacks world0.
Proof.
  split; [reflexivity|].
  apply (missing_dependency_single_error sample_format sample_str sample_join
           engine_without_ultralytics default_config world0
           (PyException ModuleNotFoundError "No module named 'ultralytics'"));
    reflexivity.
Defined.

Lemma interrupt_witness :
  train_outcome interrupted_engine = Raise KeyboardInterrupt
  /\ fst (run interrupted_engine default_config world0) = Raise (SystemExit 0)
  /\ exists new,
       stdout (snd (run interrupted_engine default_config world0))
       = stdout world0 ++ new
       /\ length (List.filter is_warning_log new) = 1%nat
       /\ last new = Some (log_event "warning" "Training interrupted by user")
       /\ List.filter is_terminal new = [].
Proof.
  split; [reflexivity|].
  apply (interrupt_during_training sample_format sample_str sample_join
           interrupted_engine default_config world0);
    reflexivity.
Defined.

Lemma resume_witness :
  import_outcome sample_engine = None
  /\ (exists rest,
        engine_calls (snd (run sample_engine resume_config world_with_last))
        = engine_calls world_with_last
          ++ Call_YOLO "runs/detect/weights/last.pt" :: rest
        /\ forallb (fun c => negb (is_Call_YOLO c)) rest = true)
  /\ (exists rest,
        engine_calls (snd (run sample_engine resume_config world0))
        = engine_calls world0 ++ Call_YOLO "yolov8n.pt" :: rest
        /\ forallb (fun c => negb (is_Call_YOLO c)) rest = true)
  /\ run sample_engine resume_config world0
     = run sample_engine (with_resume false resume_config) world0.
Proof.
  split; [reflexivity|]. split; [|split].
  - apply (load_resume_or_fresh sample_format sample_str sample_join
             sample_engine resume_config world_with_last). reflexivity.
  - apply (load_resume_or_fresh sample_format sample_str sample_join
             sample_engine resume_config world0). reflexivity.
  - apply (load_resume_or_fresh sample_format sample_str sample_join
             sample_engine resume_config world0); reflexivity.
Defined.

Lemma exception_witness :
  train_outcome failing_engine = Raise boom
  /\ isinstance_Exception boom = true
  /\ fst (run failing_engine default_config world0) = Raise (SystemExit 1)
  /\ exists new,
       stdout (snd (run failing_engine default_config world0))
       = stdout world0 ++ new ++ [error_event "Training failed: boom"]
       /\ List.filter is_terminal new = [].
Proof.
  split; [reflexivity|]. split; [reflexivity|].
  apply (exception_reported_as_error sample_format sample_str sample_join
           failing_engine default_config world0 boom);
    [reflexivity | reflexivity | right; split; reflexivity].
Defined.

Lemma metric_witness :
  let c := mkCall [PyInt 1; PyFloat 0.5%float]
             [("box_loss", PyFloat 0.25%float); ("step", PyInt 20)] in
  let ev := [("type", PyStr "metric"); ("epoch", PyInt 1); ("loss", PyFloat 0.5%float);
             ("step", PyInt 20); ("box_loss", PyFloat 0.25%float)] in
  metric c world0 = (Return tt, print_record ev world0)
  /\ exists epoch loss accuracy step extra ev',
       bind_args "metric" metric_params c
       = Return ([epoch; loss; accuracy; step], extra)
       /\ (forall k, is_param metric_params k = true -> has_key extra k = false)
       /\ print_record ev world0 = print_record ev' world0
       /\ ev' = dict_update [("type", PyStr "metric")]
                  (metric_fields epoch loss accuracy step ++ extra)
       /\ dict_get ev' "epoch" = Some epoch
       /\ dict_get ev' "loss" = Some loss
       /\ (is_not_None accuracy = true -> dict_get ev' "accuracy" = Some accuracy)
       /\ (is_not_None step = true -> dict_get ev' "step" = Some step)
       /\ (forall (i : nat) a,
             pos c !! i = Some a -> [epoch; loss; accuracy; step] !! i = Some a).
Proof.
  split; [reflexivity|].
  apply (metric_extras_follow_named_fields
           (mkCall [PyInt 1; PyFloat 0.5%float]
              [("box_loss", PyFloat 0.25%float); ("step", PyInt 20)])
           world0). reflexivity.
Defined.

(** [progress(1, 3)]: the record of a step-less call does hold the keys
    [step] and [totalSteps]; they are not absent. *)
Lemma progress_keeps_step_keys :
  ~ (forall ev, stdout (snd (progress 1 3 None None world0)) = [ev] ->
       has_key ev "step" = false /\ has_key ev "totalSteps" = false).
Proof.
  intros Habsent.
  destruct (Habsent (progress_event 1 3 None None)) as [Hstep _]; [reflexivity|].
  discriminate Hstep.
Qed.

(** [metric(1, 0.5, epoch=7)]: the key that collides with a named
    parameter does not overwrite it; the call raises [TypeError] and
    prints nothing. *)
Lemma metric_rejects_colliding_key :
  let c := mkCall [PyInt 1; PyFloat 0.5%float] [("epoch", PyInt 7)] in
  metric c world0
  = (Raise (type_error "metric" "got multiple values for argument 'epoch'"), world0)
  /\ ~ (exists ev, stdout (snd (metric c world0)) = stdout world0 ++ [ev]
                   /\ dict_get ev "epoch" = Some (PyInt 7)).
Proof.
  cbv zeta. split; [reflexivity|].
  intros (ev & Hout & _). discriminate Hout.
Qed.

(** Three runs in which an exception other than an interrupt is raised
    and no [error] record carries its text as the message: the training
    call raises [RuntimeError("boom")] and the message is
    ["Training failed: boom"]; the training call raises [SystemExit] and
    no [error] record is printed; the import raises [OSError] and nothing
    is printed. *)
Lemma error_message_not_fault_text :
  ~ (exists ev, ev ∈ stdout (snd (run failing_engine default_config world0))
                /\ has_type "error" ev = true
                /\ dict_get ev "message" = Some (PyStr (str_exn boom)))
  /\ ~ (exists ev, ev ∈ stdout (snd (run exiting_engine default_config world0))
                   /\ has_type "error" ev = true)
  /\ stdout (snd (run broken_import_engine default_config world0)) = [].
Proof.
  split; [|split].
  - intros (ev & Hin & Hty & Hmsg). vm_compute in Hin.
    repeat (apply elem_of_cons in Hin as [->|Hin];
            [first [discriminate Hty | discriminate Hmsg]|]).
    by apply elem_of_nil in Hin.
  - intros (ev & Hin & Hty). vm_compute in Hin.
    repeat (apply elem_of_cons in Hin as [->|Hin]; [discriminate Hty|]).
    by apply elem_of_nil in Hin.
  - reflexivity.
Qed.

(** C6, where the code departs from it. The model-save hook prints a
    checkpoint record for [<save_dir>/weights/best.pt] without looking at
    the filesystem: in a run whose engine has written [last.pt] only, the
    stream holds a checkpoint record whose path never existed.  (The
    final check of [finish] does look: [finish_checkpoint_exists].) *)
Theorem model_save_checkpoint_may_dangle :
  let best := "runs/detect/train/weights/best.pt"%string in
  let r := run engine_saving_last_only default_config world0 in
  on_model_save sample_join (sample_trainer 0 39) world0
  = (Return tt, print_record (checkpoint_event best 1) world0)
  /\ (best ∉ fs world0)
  /\ fst r = Return tt
  /\ stdout (snd r) !! 9%nat = Some (checkpoint_event best 1)
  /\ fs (snd r) = {["runs/detect/train/weights/last.pt"%string]}
  /\ (best ∉ fs (snd r)).
Proof.
  cbv zeta. split; [reflexivity|].
  split; [apply (bool_decide_unpack _); vm_compute; exact I|].
  split; [reflexivity|].
  split; [reflexivity|].
  split; [apply (bool_decide_unpack _); vm_compute; exact I|].
  apply (bool_decide_unpack _); vm_compute; exact I.
Qed.

(** ** Concrete runs for the further properties *)

Definition engine_bad_weights : Engine :=
  mkEngine None
    (fun _ => Some (PyException (OtherException "FileNotFoundError") "no such file"))
    [] (Return None).

Definition bare_trainer : Trainer :=
  mkTrainer 2 0 40 [("lr/pg0", 0.5%float)] "runs/detect/train".

Lemma stream_witness :
  import_outcome sample_engine = None
  /\ callbacks world0 = []
  /\ YOLO_outcome sample_engine (model_path default_config world0) = None
  /\ fst (run sample_engine default_config world0)
     = run_outcome (train_outcome sample_engine)
  /\ stdout (snd (run sample_engine default_config world0))
     = stdout world0
       ++ announce_events sample_str default_config
       ++ [log_event "info" (load_message default_config world0);
           log_event "info" "Starting training..."]
       ++ flat_map (step_events sample_format sample_join (epochs default_config))
            (train_steps sample_engine)
       ++ closing_events sample_format sample_join default_config (clock world0)
            (clock_after (train_steps sample_engine) (clock world0))
            (fs_after (train_steps sample_engine) (fs world0))
            (train_outcome sample_engine).
Proof.
  split; [reflexivity|]. split; [reflexivity|]. split; [reflexivity|].
  apply (stream_follows_engine_steps sample_format sample_str sample_join
           sample_engine default_config world0); reflexivity.
Defined.

Lemma engine_calls_witness :
  import_outcome sample_engine = None
  /\ callbacks world0 = []
  /\ YOLO_outcome sample_engine (model_path default_config world0) = None
  /\ engine_calls (snd (run sample_engine default_config world0))
     = engine_calls world0
       ++ [Call_YOLO "yolov8n.pt";
           Call_add_callback "on_train_epoch_end";
           Call_add_callback "on_train_batch_end";
           Call_add_callback "on_model_save";
           Call_train
             (mkTrainArgs "coco128" 3 16 640 0x1.47ae147ae147bp-7%float "mps"
                "runs/detect" "train" true false true 0)]
  /\ callbacks (snd (run sample_engine default_config world0))
     = [("on_train_epoch_end", Closure_on_train_epoch_end 3);
        ("on_train_batch_end", Closure_on_train_batch_end 3);
        ("on_model_save", Closure_on_model_save)].
Proof.
  split; [reflexivity|]. split; [reflexivity|]. split; [reflexivity|].
  apply (engine_calls_of_a_training_run sample_format sample_str sample_join
           sample_engine default_config world0); reflexivity.
Defined.

Lemma one_metric_per_epoch_witness :
  stdout (snd (run sample_engine default_config world0))
  = stdout world0 ++ stdout (snd (run sample_engine default_config world0))
  /\ length (List.filter (has_type "metric")
               (stdout (snd (run sample_engine default_config world0))))
     = length (List.filter (is_fire "on_train_epoch_end") (train_steps sample_engine))
  /\ length (List.filter (has_type "progress")
               (stdout (snd (run sample_engine default_config world0))))
     = (length (List.filter (is_fire "on_train_epoch_end") (train_steps sample_engine))
        + length (List.filter is_sampled_batch (train_steps sample_engine)))%nat.
Proof.
  split; [vm_compute; reflexivity|].
  apply (one_metric_per_epoch sample_format sample_str sample_join
           sample_engine default_config world0); [reflexivity | reflexivity | reflexivity | vm_compute; reflexivity].
Defined.

Lemma checkpoints_witness :
  stdout (snd (run sample_engine default_config world0))
  = stdout world0 ++ stdout (snd (run sample_engine default_config world0))
  /\ length (List.filter (has_type "checkpoint")
               (stdout (snd (run sample_engine default_config world0))))
     = (length (List.filter (is_fire "on_model_save") (train_steps sample_engine))
        + match train_outcome sample_engine with
          | Return _ =>
              if bool_decide (best_pt sample_join default_config
                              ∈ fs (snd (run sample_engine default_config world0)))
              then 1 else 0
          | Raise _ => 0
          end)%nat.
Proof.
  split; [vm_compute; reflexivity|].
  apply (checkpoints_are_not_deduplicated sample_format sample_str sample_join
           sample_engine default_config world0); [reflexivity | reflexivity | reflexivity | vm_compute; reflexivity].
Defined.

Lemma completed_witness :
  train_outcome sample_engine
  = Return (Some [("metrics/mAP50(B)", 0.75%float); ("train/box_loss", 1.5%float)])
  /\ fst (run sample_engine default_config world0) = Return tt
  /\ last (stdout (snd (run sample_engine default_config world0)))
     = Some (completed_event 1.5%float 0.75%float 12.5%float).
Proof.
  split; [reflexivity|].
  destruct (completed_record_contents sample_format sample_str sample_join
              sample_engine default_config world0
              (Some [("metrics/mAP50(B)", 0.75%float); ("train/box_loss", 1.5%float)])
              eq_refl eq_refl eq_refl eq_refl) as (Hfst & Hlast & _).
  split; [exact Hfst | exact Hlast].
Defined.

Lemma constructor_failure_witness :
  YOLO_outcome engine_bad_weights (model_path default_config world0)
  = Some (PyException (OtherException "FileNotFoundError") "no such file")
  /\ fst (run engine_bad_weights default_config world0) = Raise (SystemExit 1)
  /\ stdout (snd (run engine_bad_weights default_config world0))
     = stdout world0 ++ announce_events sample_str default_config
       ++ [log_event "info" (load_message default_config world0)]
       ++ [error_event "Training failed: no such file"]
  /\ engine_calls (snd (run engine_bad_weights default_config world0))
     = engine_calls world0 ++ [Call_YOLO (model_path default_config world0)]
  /\ callbacks (snd (run engine_bad_weights default_config world0)) = callbacks world0
  /\ fs (snd (run engine_bad_weights default_config world0)) = fs world0.
Proof.
  split; [reflexivity|].
  apply (constructor_failure_stops_before_training sample_format sample_str
           sample_join engine_bad_weights default_config world0
           (PyException (OtherException "FileNotFoundError") "no such file"));
    reflexivity.
Defined.

Lemma base_exception_witness :
  train_outcome exiting_engine = Raise (SystemExit 3)
  /\ fst (run exiting_engine default_config world0) = Raise (SystemExit 3)
  /\ exists new,
       stdout (snd (run exiting_engine default_config world0)) = stdout world0 ++ new
       /\ forallb ordinary new = true
       /\ List.filter is_terminal new = []
       /\ List.filter is_warning_log new = [].
Proof.
  split; [reflexivity|].
  apply (base_exception_passes_through sample_format sample_str sample_join
           exiting_engine default_config world0 (SystemExit 3)); reflexivity.
Defined.

Lemma import_failure_witness :
  import_outcome broken_import_engine
  = Some (PyException (OtherException "OSError") "libtorch.so: cannot open")
  /\ run broken_import_engine default_config world0
     = (Raise (PyException (OtherException "OSError") "libtorch.so: cannot open"),
        world0).
Proof.
  split; [reflexivity|].
  apply (import_failure_is_not_reported sample_format sample_str sample_join
           broken_import_engine default_config world0); reflexivity.
Defined.

Lemma progress_epochs_witness :
  stdout (snd (run sample_engine default_config world0))
  = stdout world0 ++ stdout (snd (run sample_engine default_config world0))
  /\ omap progress_epoch (stdout (snd (run sample_engine default_config world0)))
     = map (fun trainer => (epoch trainer + 1, epochs default_config))
         (omap progress_step (train_steps sample_engine))
  /\ (Forall (fun trainer => 0 <= epoch trainer < epochs default_config)
        (omap progress_step (train_steps sample_engine)) ->
      Forall (fun p => 1 <= fst p <= snd p)
        (omap progress_epoch (stdout (snd (run sample_engine default_config world0))))).
Proof.
  split; [vm_compute; reflexivity|].
  apply (progress_epochs_follow_the_engine sample_format sample_str sample_join
           sample_engine default_config world0); [reflexivity | reflexivity | reflexivity | vm_compute; reflexivity].
Defined.

Lemma emit_witness :
  let kwargs := [("path", PyStr "best.pt"); ("epoch", PyInt 3)] in
  NoDup (keys kwargs)
  /\ has_key kwargs "event_type" = false
  /\ exists ev,
       emit (mkCall [PyStr "checkpoint"] kwargs) world0
       = (Return tt, print_record ev world0)
       /\ keys ev
          = "type" :: List.filter (fun k => negb (String.eqb "type" k)) (keys kwargs)
       /\ (forall k v, dict_get kwargs k = Some v -> dict_get ev k = Some v)
       /\ (has_key kwargs "type" = false -> dict_get ev "type" = Some (PyStr "checkpoint")).
Proof.
  cbv zeta.
  assert (Hnd : NoDup (keys [("path", PyStr "best.pt"); ("epoch", PyInt 3)])).
  { apply (bool_decide_unpack _). vm_compute. exact I. }
  split; [exact Hnd|]. split; [reflexivity|].
  apply (emit_prints_its_keyword_arguments (PyStr "checkpoint")
           [("path", PyStr "best.pt"); ("epoch", PyInt 3)] world0 Hnd).
  reflexivity.
Defined.

Lemma event_type_keyword_witness :
  let c := mkCall [PyInt 1; PyFloat 0.5%float] [("event_type", PyStr "x")] in
  has_key (kw c) "event_type" = true
  /\ exists msg, metric c world0 = (Raise (PyException TypeError msg), world0).
Proof.
  cbv zeta. split; [reflexivity|].
  apply (metric_rejects_event_type_keyword
           (mkCall [PyInt 1; PyFloat 0.5%float] [("event_type", PyStr "x")]) world0).
  reflexivity.
Defined.

Lemma type_keyword_witness :
  let c := mkCall [PyInt 1; PyFloat 0.5%float] [("type", PyStr "oops")] in
  let w' := print_record
              [("type", PyStr "oops"); ("epoch", PyInt 1); ("loss", PyFloat 0.5%float)]
              world0 in
  metric c world0 = (Return tt, w')
  /\ exists ev,
       w' = print_record ev world0
       /\ event_type ev = Some (PyStr "oops")
       /\ (PyStr "oops" <> PyStr "metric" -> has_type "metric" ev = false).
Proof.
  cbv zeta. split; [reflexivity|].
  apply (metric_type_keyword_replaces_discriminator
           (mkCall [PyInt 1; PyFloat 0.5%float] [("type", PyStr "oops")]) world0);
    reflexivity.
Defined.

Lemma omits_None_witness :
  let c := mkCall [PyInt 1; PyFloat 0.5%float] [("step", PyInt 4)] in
  let w' := print_record
              [("type", PyStr "metric"); ("epoch", PyInt 1);
               ("loss", PyFloat 0.5%float); ("step", PyInt 4)] world0 in
  metric c world0 = (Return tt, w')
  /\ bind_args "metric" metric_params c
     = Return ([PyInt 1; PyFloat 0.5%float; PyNone; PyInt 4], [])
  /\ exists ev,
       w' = print_record ev world0
       /\ has_key ev "accuracy" = false
       /\ has_key ev "step" = true.
Proof.
  cbv zeta. split; [reflexivity|]. split; [reflexivity|].
  apply (metric_omits_None_fields
           (mkCall [PyInt 1; PyFloat 0.5%float] [("step", PyInt 4)]) world0 _
           (PyInt 1) (PyFloat 0.5%float) PyNone (PyInt 4) []); reflexivity.
Defined.

Lemma requires_loss_witness :
  let c := mkCall [PyInt 1] [("accuracy", PyFloat 0.5%float)] in
  (length (pos c) < 2)%nat
  /\ has_key (kw c) "loss" = false
  /\ exists msg, metric c world0 = (Raise (PyException TypeError msg), world0).
Proof.
  cbv zeta. split; [cbn; lia|]. split; [reflexivity|].
  apply (metric_requires_loss (mkCall [PyInt 1] [("accuracy", PyFloat 0.5%float)]) world0);
    [cbn; lia | reflexivity].
Defined.

Lemma missing_metrics_witness :
  (forall k, k ∈ ["train/box_loss"; "train/cls_loss"; "train/dfl_loss";
                  "metrics/mAP50(B)"; "metrics/mAP50-95(B)"] ->
             k ∉ map fst (metrics bare_trainer))
  /\ exists p l,
       stdout (snd (on_train_epoch_end sample_format 3 bare_trainer world0))
       = stdout world0
         ++ [[("type", PyStr "metric"); ("epoch", PyInt (epoch bare_trainer + 1));
              ("loss", PyFloat 0); ("accuracy", PyFloat 0); ("mAP50", PyFloat 0);
              ("mAP50_95", PyFloat 0); ("box_loss", PyFloat 0);
              ("cls_loss", PyFloat 0); ("dfl_loss", PyFloat 0)];
             p; l].
Proof.
  assert (Hmiss : forall k,
             k ∈ ["train/box_loss"; "train/cls_loss"; "train/dfl_loss";
                  "metrics/mAP50(B)"; "metrics/mAP50-95(B)"] ->
             k ∉ map fst (metrics bare_trainer)).
  { intros k Hk Hin. apply list_elem_of_singleton in Hin. subst k.
    repeat (apply elem_of_cons in Hk as [Hk|Hk]; [discriminate Hk|]).
    by apply elem_of_nil in Hk. }
  split; [exact Hmiss|].
  apply (epoch_end_missing_metrics_read_as_zero sample_format 3 bare_trainer world0 Hmiss).
Defined.
